(** * gatekeeper: validation schemas and server-side auth actions

    A shallow embedding of
      - [src/lib/validation/auth-schema.ts] (the zod schemas), and
      - the server actions file (signup, signin, signOAuth, forgotPassword,
        resetPassword, signout, getSession),
    followed by the properties of the repository's specification.

    Strings: a JavaScript string is modelled by [string], one character per
    UTF-16 code unit (code units below 256), so that [String.length] is the
    JavaScript [length] the [min] check reads. *)

From Stdlib Require Import String Ascii List Bool Arith Lia.
From stdpp Require Import base option list strings gmap.

Local Open Scope string_scope.
Local Open Scope list_scope.

(* ====================================================================== *)
(** ** The part of zod the schemas use *)
(* ====================================================================== *)

Module Zod.

(** An unanchored regular expression made of one character class, which is
    the only form the schemas use: [/[A-Z]/], [/[a-z]/], [/\d/],
    [/[@$!%*?&]/]. *)
Inductive CharClass : Type :=
| Range (lo hi : ascii)
| Digit
| OneOf (chars : string).

Definition in_range (lo hi c : ascii) : bool :=
  (nat_of_ascii lo <=? nat_of_ascii c)%nat && (nat_of_ascii c <=? nat_of_ascii hi)%nat.

Definition class_matches (cls : CharClass) (c : ascii) : bool :=
  match cls with
  | Range lo hi => in_range lo hi c
  | Digit => in_range "0" "9" c
  | OneOf chars => existsb (Ascii.eqb c) (list_ascii_of_string chars)
  end.

(** [re.test(s)]: some position of [s] matches the class. *)
Definition regex_test (cls : CharClass) (s : string) : bool :=
  existsb (class_matches cls) (list_ascii_of_string s).

(** One check of a [z.string()] chain, with the message it reports. *)
Record StringCheck : Type := mkCheck { check : string -> bool; message_of : string }.

Definition min (n : nat) (msg : string) : StringCheck :=
  mkCheck (fun s => (n <=? String.length s)%nat) msg.

Definition regex (cls : CharClass) (msg : string) : StringCheck :=
  mkCheck (regex_test cls) msg.

(** [z.string()] followed by its checks, in the order they are chained. *)
Definition ZodString : Type := list StringCheck.

(** Every check runs, and each failing one reports its message: a failed
    check does not stop the ones after it. *)
Fixpoint run_checks (checks : ZodString) (s : string) : list string :=
  match checks with
  | [] => []
  | c :: rest =>
      if check c s then run_checks rest s else message_of c :: run_checks rest s
  end.

Record ZodIssue : Type := mkIssue { path : list string; message : string }.

(** The issues of one field of an object schema. *)
Definition field_issues (name : string) (schema : ZodString) (value : string)
  : list ZodIssue :=
  map (mkIssue [name]) (run_checks schema value).

Inductive SafeParseReturn (D : Type) : Type :=
| ParseSuccess (data : D)
| ParseError (error : list ZodIssue).
Arguments ParseSuccess {D} data.
Arguments ParseError {D} error.

(** The end of a parse: success exactly when no issue was raised. *)
Definition finish {D : Type} (issues : list ZodIssue) (data : D) : SafeParseReturn D :=
  match issues with
  | [] => ParseSuccess data
  | _ :: _ => ParseError issues
  end.

(** An object schema over the input type [T]: the issues it raises on a
    value, and the value it hands back on success (unknown keys are
    stripped by [z.object]). *)
Record ZodObject (T : Type) : Type := mkObject {
  issues_of : T -> list ZodIssue;
  output_of : T -> T
}.
Arguments mkObject {T} issues_of output_of.
Arguments issues_of {T} _ _.
Arguments output_of {T} _ _.

Definition safeParse {T : Type} (schema : ZodObject T) (values : T) : SafeParseReturn T :=
  finish (issues_of schema values) (output_of schema values).

(** [schema.refine(pred, {message, path})]: the inner schema is parsed
    first; the predicate then runs on the parsed value, also when a check
    of a field has failed, and its issue comes last. *)
Definition refinement {T : Type} (schema : ZodObject T) (pred : T -> bool)
    (msg : string) (at_path : list string) : ZodObject T :=
  mkObject
    (fun values =>
       issues_of schema values
       ++ (if pred (output_of schema values) then [] else [mkIssue at_path msg]))
    (output_of schema).

Record FlattenedError : Type := mkFlattened {
  formErrors : list string;
  fieldErrors : gmap string (list string)
}.

(** [error.flatten()]: an issue with a path goes to the list of its first
    path element (created on first use), the others to [formErrors]. *)
Definition flatten_step (acc : FlattenedError) (sub : ZodIssue) : FlattenedError :=
  match path sub with
  | k :: _ =>
      mkFlattened (formErrors acc)
        (<[k := default [] (fieldErrors acc !! k) ++ [message sub]]> (fieldErrors acc))
  | [] => mkFlattened (formErrors acc ++ [message sub]) (fieldErrors acc)
  end.

Definition flatten (issues : list ZodIssue) : FlattenedError :=
  fold_left flatten_step issues (mkFlattened [] ∅).

End Zod.

(* ====================================================================== *)
(** ** auth-schema.ts *)
(* ====================================================================== *)

Module AuthSchema.
Import Zod.

(** zod's own test behind [z.string().email()]. The library is not part of
    the repository, so its email grammar is a parameter of the schemas. *)
Class EmailGrammar : Type := isEmail : string -> bool.

Definition email_check `{EmailGrammar} (msg : string) : StringCheck := mkCheck isEmail msg.

(** The input of sign-up and sign-in: the two properties the TypeScript
    type declares and, the type being structural, whatever other own
    properties the caller's object carries. *)
Record Credentials : Type := mkCredentials {
  email : string;
  password : string;
  extra : list (string * string)
}.

(** The input of forgot-password. *)
Record EmailForm : Type := mkEmailForm {
  ef_email : string;
  ef_extra : list (string * string)
}.

(** The input of reset-password. *)
Record PasswordForm : Type := mkPasswordForm {
  pf_password : string;
  pf_confirmPassword : string;
  pf_extra : list (string * string)
}.

(** [z.object({ email: ..., password: ... })] *)
Definition credentials_object (email_schema password_schema : ZodString)
  : ZodObject Credentials :=
  mkObject
    (fun values =>
       field_issues "email" email_schema (email values)
       ++ field_issues "password" password_schema (password values))
    (fun values => mkCredentials (email values) (password values) []).

(** [z.object({ email: ... })] *)
Definition email_object (email_schema : ZodString) : ZodObject EmailForm :=
  mkObject
    (fun values => field_issues "email" email_schema (ef_email values))
    (fun values => mkEmailForm (ef_email values) []).

(** [z.object({ password: ..., confirmPassword: ... })] *)
Definition password_object (password_schema confirm_schema : ZodString)
  : ZodObject PasswordForm :=
  mkObject
    (fun values =>
       field_issues "password" password_schema (pf_password values)
       ++ field_issues "confirmPassword" confirm_schema (pf_confirmPassword values))
    (fun values => mkPasswordForm (pf_password values) (pf_confirmPassword values) []).

Definition uppercase : CharClass := Range "A" "Z".
Definition lowercase : CharClass := Range "a" "z".
Definition special : CharClass := OneOf "@$!%*?&".

(** The [password] chain of [SignUpFormSchema]. *)
Definition SignUp_password : ZodString :=
  [ min 8 "Password must be at least 8 characters long";
    regex uppercase "Password must contain at least one uppercase letter";
    regex lowercase "Password must contain at least one lowercase letter";
    regex Digit "Password must contain at least one number";
    regex special "Password must contain at least one special character (@$!%*?&)" ].

Definition SignUpFormSchema `{EmailGrammar} : ZodObject Credentials :=
  credentials_object [ email_check "Please enter a valid email" ] SignUp_password.

(** The [password] chain of [SignInFormSchema]. *)
Definition SignIn_password : ZodString := [ min 8 "Be at least 8 characters long" ].

Definition SignInFormSchema `{EmailGrammar} : ZodObject Credentials :=
  credentials_object [ email_check "Please enter a valid email" ] SignIn_password.

Definition ForgotPasswordSchema `{EmailGrammar} : ZodObject EmailForm :=
  email_object [ email_check "Please enter valid email" ].

(** The [password] chain of [ResetPasswordSchema]. *)
Definition ResetPassword_password : ZodString :=
  [ min 8 "Be at least 8 characters long";
    regex uppercase "Must contain at least one uppercase letter";
    regex lowercase "Must contain at least one lowercase letter";
    regex Digit "Must contain at least one number";
    regex special "Must contain at least one special character (@$!%*?&)" ].

Definition ResetPasswordSchema : ZodObject PasswordForm :=
  refinement
    (password_object ResetPassword_password [])
    (fun data => String.eqb (pf_password data) (pf_confirmPassword data))
    "Password don't match"
    ["confirmPassword"].

(** The input of the sign-up form with a confirmation field. *)
Record SignUpDoubleCheckForm : Type := mkSignUpDoubleCheckForm {
  dc_email : string;
  dc_password : string;
  dc_confirmPassword : string;
  dc_extra : list (string * string)
}.

(** [z.object({ email: ..., password: ..., confirmPassword: ... })] *)
Definition confirmed_credentials_object
    (email_schema password_schema confirm_schema : ZodString)
  : ZodObject SignUpDoubleCheckForm :=
  mkObject
    (fun values =>
       field_issues "email" email_schema (dc_email values)
       ++ field_issues "password" password_schema (dc_password values)
       ++ field_issues "confirmPassword" confirm_schema (dc_confirmPassword values))
    (fun values =>
       mkSignUpDoubleCheckForm (dc_email values) (dc_password values)
         (dc_confirmPassword values) []).

(** The [password] chain of [SignUpDoubleCheckFormSchema]. *)
Definition SignUpDoubleCheck_password : ZodString :=
  [ min 8 "Be at least 8 characters long";
    regex uppercase "Must contain at least one uppercase letter";
    regex lowercase "Must contain at least one lowercase letter";
    regex Digit "Must contain at least one number";
    regex special "Must contain at least one special character (@$!%*?&)" ].

(** sign up with confirm password check *)
Definition SignUpDoubleCheckFormSchema `{EmailGrammar} : ZodObject SignUpDoubleCheckForm :=
  refinement
    (confirmed_credentials_object
       [ email_check "Please enter a valid email" ] SignUpDoubleCheck_password [])
    (fun data => String.eqb (dc_password data) (dc_confirmPassword data))
    "Password don't match"
    ["confirmPassword"].

End AuthSchema.

(* ====================================================================== *)
(** ** The server actions *)
(* ====================================================================== *)

Module Actions.
Import Zod AuthSchema.

(** What a [catch] clause can receive: an instance of the provider's
    [AuthError] class, or anything else that was thrown. *)
Inductive Thrown : Type :=
| AuthError (msg : string)
| OtherThrown (description : string).

Definition instanceof_AuthError (error : Thrown) : bool :=
  match error with
  | AuthError _ => true
  | OtherThrown _ => false
  end.

Definition error_message (error : Thrown) : string :=
  match error with
  | AuthError msg => msg
  | OtherThrown description => description
  end.

(** How an awaited provider call ends: it resolves to [{ data, error }], or
    the promise is rejected. *)
Inductive Reply (D : Type) : Type :=
| Resolved (data : D) (error : option Thrown)
| Rejected (reason : Thrown).
Arguments Resolved {D} data error.
Arguments Rejected {D} reason.

(** The failure a reply carries, if any. *)
Definition failure {D : Type} (r : Reply D) : option Thrown :=
  match r with
  | Resolved _ error => error
  | Rejected reason => Some reason
  end.

(** The operations of [supabase.auth] the actions invoke, with the
    arguments they are given. *)
Inductive ProviderOp : Type :=
| SignUp (credentials : Credentials)
| SignInWithPassword (credentials : Credentials)
| SignInWithOAuth (provider : string) (redirectTo : string)
| ResetPasswordForEmail (email : string) (redirectTo : string)
| UpdateUser (new_password : string)
| SignOut
| GetUser.

(** What an action does besides returning: provider calls (with the failure
    each one reported, if any) and diagnostic log entries. *)
Inductive Event : Type :=
| ProviderCall (op : ProviderOp) (failed : option Thrown)
| ConsoleError (label : string) (error : Thrown).

Definition provider_op (ev : Event) : option ProviderOp :=
  match ev with
  | ProviderCall op _ => Some op
  | ConsoleError _ _ => None
  end.

(** The provider operations of a trace, in order. *)
Definition provider_calls (trace : list Event) : list ProviderOp :=
  omap provider_op trace.

Inductive Completion (A : Type) : Type :=
| Normal (value : A)
| Abrupt (thrown : Thrown).
Arguments Normal {A} value.
Arguments Abrupt {A} thrown.

Record AuthResponse : Type := mkAuthResponse {
  success : bool;
  message : string;
  zod_errors : option (gmap string (list string))
}.

Section WithProvider.

(** The provider's user record is opaque to the actions. *)
Context {User : Type} `{EmailGrammar}.

Record AuthSessionResponse : Type := mkAuthSessionResponse {
  session_success : bool;
  session_message : string;
  user : option User
}.

(** The identity client, as the replies it gives to each call. *)
Record SupabaseClient : Type := mkClient {
  auth_signUp : Credentials -> Reply unit;
  auth_signInWithPassword : Credentials -> Reply unit;
  auth_signInWithOAuth : string -> string -> Reply (option string);
  auth_resetPasswordForEmail : string -> string -> Reply unit;
  auth_updateUser : string -> Reply unit;
  auth_signOut : Reply unit;
  auth_getUser : Reply (option User)
}.

(** What an action reads from outside: the process environment, and what
    [createClient()] (not part of the given sources) gives: a client, or
    an exception. *)
Record World : Type := mkWorld {
  NEXT_PUBLIC_APP_URL : option string;
  createClient_result : Completion SupabaseClient
}.

(** An action runs in a world, completes normally or abruptly, and leaves
    a trace. *)
Definition Action (A : Type) : Type := World -> Completion A * list Event.

Definition ret {A : Type} (a : A) : Action A := fun _ => (Normal a, []).

Definition throw {A : Type} (e : Thrown) : Action A := fun _ => (Abrupt e, []).

Definition bind {A B : Type} (m : Action A) (k : A -> Action B) : Action B :=
  fun w =>
    match m w with
    | (Normal a, t) => let (c, t') := k a w in (c, t ++ t')
    | (Abrupt e, t) => (Abrupt e, t)
    end.

(** [try { body } catch (error) { handler }] *)
Definition try_catch {A : Type} (body : Action A) (handler : Thrown -> Action A)
  : Action A :=
  fun w =>
    match body w with
    | (Normal a, t) => (Normal a, t)
    | (Abrupt e, t) => let (c, t') := handler e w in (c, t ++ t')
    end.

Definition process_env : Action (option string) :=
  fun w => (Normal (NEXT_PUBLIC_APP_URL w), []).

Definition createClient : Action SupabaseClient :=
  fun w => (createClient_result w, []).

(** [await supabase.auth.op(args)] *)
Definition await {D : Type} (op : ProviderOp) (r : Reply D)
  : Action (D * option Thrown) :=
  fun _ =>
    match r with
    | Resolved data error => (Normal (data, error), [ProviderCall op error])
    | Rejected reason => (Abrupt reason, [ProviderCall op (Some reason)])
    end.

(** [if (error) throw error;] *)
Definition throw_if (error : option Thrown) : Action unit :=
  match error with
  | Some e => throw e
  | None => ret tt
  end.

Definition console_error (label : string) (error : Thrown) : Action unit :=
  fun _ => (Normal tt, [ConsoleError label error]).

(** A value inside a template literal: [undefined] prints as such. *)
Definition interpolate (v : option string) : string := default "undefined" v.

Notation "'let*' x ':=' m 'in' k" := (bind m (fun x => k))
  (at level 10, x name, m at level 100, k at level 200, only parsing).
Notation "'do' m 'in' k" := (bind m (fun _ => k))
  (at level 10, m at level 100, k at level 200, only parsing).

(** sign up action *)
Definition signup (values : Credentials) : Action AuthResponse :=
  try_catch
    (match safeParse SignUpFormSchema values with
     | ParseError error =>
         ret {| success := false;
                message := "Form validation error";
                zod_errors := Some (fieldErrors (flatten error)) |}
     | ParseSuccess data =>
         let* supabase := createClient in
         let* r := await (SignUp data) (auth_signUp supabase data) in
         do throw_if (snd r) in
         ret {| success := true;
                message := "Account creation successful. Check email to verify.";
                zod_errors := None |}
     end)
    (fun error =>
       do console_error "[Auth] Error while sign up" error in
       ret {| success := false;
              message := if instanceof_AuthError error then error_message error
                         else "Error while sign up";
              zod_errors := None |}).

(** sign in action; the provider is given [values], the object the
    action received. *)
Definition signin (values : Credentials) : Action AuthResponse :=
  try_catch
    (match safeParse SignInFormSchema values with
     | ParseError error =>
         ret {| success := false;
                message := "Form validation error";
                zod_errors := Some (fieldErrors (flatten error)) |}
     | ParseSuccess _ =>
         let* supabase := createClient in
         let* r := await (SignInWithPassword values) (auth_signInWithPassword supabase values) in
         do throw_if (snd r) in
         ret {| success := true;
                message := "Sign in successful";
                zod_errors := None |}
     end)
    (fun error =>
       do console_error "[Auth] Sign in failed" error in
       ret {| success := false;
              message := if instanceof_AuthError error then error_message error
                         else "Sign in failed";
              zod_errors := None |}).

(** sign in/up with OAuth *)
Definition signOAuth (provider : string) : Action AuthResponse :=
  try_catch
    (let* supabase := createClient in
     let* r := await (SignInWithOAuth provider "") (auth_signInWithOAuth supabase provider "") in
     do throw_if (snd r) in
     match fst r with
     | None =>
         ret {| success := false;
                message := "Failed to initiate OAuth signin";
                zod_errors := None |}
     | Some _ =>
         ret {| success := true;
                message := "OAuth signin successful";
                zod_errors := None |}
     end)
    (fun error =>
       do console_error "[Auth] OAuth signin error" error in
       ret {| success := false;
              message := if instanceof_AuthError error then error_message error
                         else "OAuth signin error";
              zod_errors := None |}).

(** forgot password (send reset link asking email) *)
Definition forgotPassword (email : EmailForm) : Action AuthResponse :=
  try_catch
    (let* supabase := createClient in
     let* app_url := process_env in
     let redirectTo := interpolate app_url +:+ "/reset-password" in
     let* r := await (ResetPasswordForEmail (ef_email email) redirectTo)
                (auth_resetPasswordForEmail supabase (ef_email email) redirectTo) in
     do throw_if (snd r) in
     ret {| success := true;
            message := "Reset link sent. Please check.";
            zod_errors := None |})
    (fun error =>
       do console_error "[Auth] Error occured while sending reset password link" error in
       ret {| success := false;
              message := if instanceof_AuthError error then error_message error
                         else "Error occured while sending reset password link";
              zod_errors := None |}).

(** reset password (update user, take new password as input) *)
Definition resetPassword (newPassword : PasswordForm) : Action AuthResponse :=
  try_catch
    (let* supabase := createClient in
     let* r := await (UpdateUser (pf_password newPassword))
                (auth_updateUser supabase (pf_password newPassword)) in
     do throw_if (snd r) in
     ret {| success := true;
            message := "Password reset successful. Please Sign in.";
            zod_errors := None |})
    (fun error =>
       do console_error "[Auth] Error while updating password" error in
       ret {| success := false;
              message := if instanceof_AuthError error then error_message error
                         else "Error while updating password";
              zod_errors := None |}).

(** sign out *)
Definition signout : Action AuthResponse :=
  try_catch
    (let* supabase := createClient in
     let* r := await SignOut (auth_signOut supabase) in
     do throw_if (snd r) in
     ret {| success := true;
            message := "Sign out successful";
            zod_errors := None |})
    (fun error =>
       do console_error "[Auth] Error occured while sign out" error in
       ret {| success := false;
              message := if instanceof_AuthError error then error_message error
                         else "Error occured while sign out";
              zod_errors := None |}).

(** get current session on server *)
Definition getSession : Action AuthSessionResponse :=
  try_catch
    (let* supabase := createClient in
     let* r := await GetUser (auth_getUser supabase) in
     do throw_if (snd r) in
     ret {| session_success := true;
            session_message := "Fetching user sesssion successful";
            user := fst r |})
    (fun error =>
       do console_error "[Auth] Error fetching session" error in
       ret {| session_success := false;
              session_message := if instanceof_AuthError error then error_message error
                                 else "Error fetching session";
              user := None |}).

End WithProvider.

End Actions.

Import Zod AuthSchema Actions.

(* ====================================================================== *)
(** ** The vocabulary of the specification *)
(* ====================================================================== *)

(** Some character of [s] satisfies [P]. *)
Definition contains (P : ascii -> Prop) (s : string) : Prop :=
  exists c, In c (list_ascii_of_string s) /\ P c.

Definition between (lo hi c : ascii) : Prop :=
  (nat_of_ascii lo <= nat_of_ascii c /\ nat_of_ascii c <= nat_of_ascii hi)%nat.

Definition uppercase_letter : ascii -> Prop := between "A" "Z".
Definition lowercase_letter : ascii -> Prop := between "a" "z".
Definition digit : ascii -> Prop := between "0" "9".
Definition special_character (c : ascii) : Prop :=
  In c (list_ascii_of_string "@$!%*?&").

(** The password rule of sign-up and reset, in the specification's words:
    at least 8 characters, an uppercase letter, a lowercase letter, a digit
    and a character of [@$!%*?&]. *)
Definition password_policy (pw : string) : Prop :=
  (8 <= String.length pw)%nat
  /\ contains uppercase_letter pw
  /\ contains lowercase_letter pw
  /\ contains digit pw
  /\ contains special_character pw.

(** The messages a list of issues files under the field [k], in order. *)
Definition under (k : string) (issue : ZodIssue) : bool :=
  match path issue with
  | k' :: _ => String.eqb k' k
  | [] => false
  end.

Definition messages_under (k : string) (issues : list ZodIssue) : list string :=
  map Zod.message (List.filter (under k) issues).

(** A field's entry in the field-error map: absent when it has no message. *)
Definition entry (msgs : list string) : option (list string) :=
  match msgs with
  | [] => None
  | _ :: _ => Some msgs
  end.

(** The world of an action with another application URL in its environment. *)
Definition with_app_url {User : Type} (url : option string) (w : World (User := User))
  : World (User := User) :=
  mkWorld url (createClient_result w).

(** The envelope of a caught failure. *)
Definition failure_envelope (error : Thrown) (fallback : string) : AuthResponse :=
  {| success := false;
     message := match error with
                | AuthError msg => msg
                | OtherThrown _ => fallback
                end;
     zod_errors := None |}.

(** The session envelope of a caught failure. *)
Definition session_failure_envelope {User : Type} (error : Thrown) (fallback : string)
  : AuthSessionResponse (User := User) :=
  {| session_success := false;
     session_message := match error with
                        | AuthError msg => msg
                        | OtherThrown _ => fallback
                        end;
     user := None |}.

(** One delegated call, as the action that makes it sees it: the operation
    invoked, the failure of its reply (if any), and the envelope returned
    when there is none. *)
Record Delegation (A : Type) : Type := mkDelegation {
  invoked : ProviderOp;
  failed_with : option Thrown;
  on_success : A
}.
Arguments mkDelegation {A} invoked failed_with on_success.
Arguments invoked {A} _.
Arguments failed_with {A} _.
Arguments on_success {A} _.

(** The run of an action that delegates one call to the provider: what it
    returns and the trace it leaves, by what [createClient()] gave and by
    the failure of the reply. *)
Definition delegated {User A : Type} (w : World (User := User)) (label : string)
    (on_failure : Thrown -> A)
    (call : SupabaseClient (User := User) -> Delegation A)
  : Completion A * list Event :=
  match createClient_result w with
  | Abrupt e => (Normal (on_failure e), [ConsoleError label e])
  | Normal supabase =>
      match failed_with (call supabase) with
      | Some e =>
          (Normal (on_failure e),
           [ProviderCall (invoked (call supabase)) (Some e); ConsoleError label e])
      | None =>
          (Normal (on_success (call supabase)),
           [ProviderCall (invoked (call supabase)) None])
      end
  end.

Ltac unfold_action :=
  unfold try_catch, bind, ret, throw, throw_if, await, createClient, process_env,
    console_error, delegated, failure_envelope, session_failure_envelope.

(** What holds of the run of an action that validates [values] with
    [schema]: it returns an envelope [r]; [r] carries [zod_errors] exactly
    when the schema rejected [values]; if it carries them it is the
    validation envelope; a success envelope carries none, and neither does
    the envelope of a failed provider call. *)
Definition zod_errors_invariant (schema : ZodObject Credentials)
    (values : Credentials) (run : Completion AuthResponse * list Event) : Prop :=
  exists r,
    fst run = Normal r
    /\ (is_Some (zod_errors r) <-> exists error, safeParse schema values = ParseError error)
    /\ (is_Some (zod_errors r) ->
        success r = false /\ message r = "Form validation error")
    /\ (success r = true -> zod_errors r = None)
    /\ (forall op e, In (ProviderCall op (Some e)) (snd run) -> zod_errors r = None).

(** The field-error map [safeParse] reports for [values] when it fails:
    its error holds the issues of the schema, and the action flattens it. *)
Definition field_errors_of {T : Type} (schema : ZodObject T) (values : T)
  : gmap string (list string) :=
  fieldErrors (flatten (issues_of schema values)).

(** What it is for the run [run] of an action in the world [w] to turn
    every fault into a failure envelope: the run completes normally; when
    [createClient()] throws [e] it returns [on_failure e]; and when the
    client's reply (whose failure is [reply_failure]) carries the error [e]
    or is rejected with [e], it returns [on_failure e] too. *)
Definition demotes_faults {User A : Type} (w : World (User := User))
    (run : Completion A * list Event) (on_failure : Thrown -> A)
    (reply_failure : SupabaseClient (User := User) -> option Thrown) : Prop :=
  (exists r, fst run = Normal r)
  /\ (forall e, createClient_result w = Abrupt e -> fst run = Normal (on_failure e))
  /\ (forall supabase e,
        createClient_result w = Normal supabase ->
        reply_failure supabase = Some e ->
        fst run = Normal (on_failure e)).

Definition console_entry (ev : Event) : option (string * Thrown) :=
  match ev with
  | ProviderCall _ _ => None
  | ConsoleError label error => Some (label, error)
  end.

(** The log entries of a trace, in order. *)
Definition console_errors (trace : list Event) : list (string * Thrown) :=
  omap console_entry trace.

(** How an action with the log label [label] logs: under that label only,
    at most once, and every failure a provider call reported. *)
Definition log_discipline (label : string) (trace : list Event) : Prop :=
  (forall l e, In (ConsoleError l e) trace -> l = label)
  /\ (length (console_errors trace) <= 1)%nat
  /\ (forall op e, In (ProviderCall op (Some e)) trace -> In (ConsoleError label e) trace).

(** *** Sample environments, for the examples *)

(** A stand-in for zod's email grammar: something, an at sign, something. *)
Definition sample_grammar : EmailGrammar :=
  fun s =>
    match list_ascii_of_string s with
    | [] => false
    | c :: rest =>
        negb (Ascii.eqb c "@")
        && existsb (Ascii.eqb "@") (removelast rest)
        && negb (Ascii.eqb (List.last rest "@"%char) "@")
    end.

(** A provider that accepts every call; nobody is signed in. *)
Definition accepting_client : SupabaseClient (User := string) :=
  {| auth_signUp := fun _ => Resolved tt None;
     auth_signInWithPassword := fun _ => Resolved tt None;
     auth_signInWithOAuth := fun _ _ => Resolved (Some "https://provider.example/authorize") None;
     auth_resetPasswordForEmail := fun _ _ => Resolved tt None;
     auth_updateUser := fun _ => Resolved tt None;
     auth_signOut := Resolved tt None;
     auth_getUser := Resolved None None |}.

Definition accepting_world : World (User := string) :=
  mkWorld (Some "https://app.example") (Normal accepting_client).

(** A provider that answers every call with the error [e]. *)
Definition refusing_client (e : Thrown) : SupabaseClient (User := string) :=
  {| auth_signUp := fun _ => Resolved tt (Some e);
     auth_signInWithPassword := fun _ => Resolved tt (Some e);
     auth_signInWithOAuth := fun _ _ => Resolved None (Some e);
     auth_resetPasswordForEmail := fun _ _ => Resolved tt (Some e);
     auth_updateUser := fun _ => Resolved tt (Some e);
     auth_signOut := Resolved tt (Some e);
     auth_getUser := Resolved None (Some e) |}.

Definition refusing_world (e : Thrown) : World (User := string) :=
  mkWorld None (Normal (refusing_client e)).

(** A provider whose every call throws [e]. *)
Definition throwing_client (e : Thrown) : SupabaseClient (User := string) :=
  {| auth_signUp := fun _ => Rejected e;
     auth_signInWithPassword := fun _ => Rejected e;
     auth_signInWithOAuth := fun _ _ => Rejected e;
     auth_resetPasswordForEmail := fun _ _ => Rejected e;
     auth_updateUser := fun _ => Rejected e;
     auth_signOut := Rejected e;
     auth_getUser := Rejected e |}.

Definition throwing_world (e : Thrown) : World (User := string) :=
  mkWorld None (Normal (throwing_client e)).

(** A provider that accepts every call; the user [u] is signed in. *)
Definition signed_in_client (u : string) : SupabaseClient (User := string) :=
  {| auth_signUp := fun _ => Resolved tt None;
     auth_signInWithPassword := fun _ => Resolved tt None;
     auth_signInWithOAuth := fun _ _ => Resolved (Some "https://provider.example/authorize") None;
     auth_resetPasswordForEmail := fun _ _ => Resolved tt None;
     auth_updateUser := fun _ => Resolved tt None;
     auth_signOut := Resolved tt None;
     auth_getUser := Resolved (Some u) None |}.

(** Its world; the application URL is not configured. *)
Definition signed_in_world (u : string) : World (User := string) :=
  mkWorld None (Normal (signed_in_client u)).

(** A world in which [createClient()] throws [e]. *)
Definition clientless_world (e : Thrown) : World (User := string) :=
  mkWorld None (Abrupt e).

(** A sign-in object with a property its type does not declare. *)
Definition overfull_credentials : Credentials :=
  mkCredentials "a@b.com" "longpassword1" [("phone", "+15550100")].

(* ====================================================================== *)
(** ** Facts about the validators *)
(* ====================================================================== *)

Section ZodFacts.

Lemma in_range_between lo hi c : in_range lo hi c = true <-> between lo hi c.
Proof.
  unfold in_range, between.
  rewrite andb_true_iff, !Nat.leb_le. reflexivity.
Qed.

Lemma regex_test_range lo hi s :
  regex_test (Range lo hi) s = true <-> contains (between lo hi) s.
Proof.
  unfold regex_test, contains. rewrite existsb_exists.
  split; intros [c [Hin Hc]]; exists c; split; auto;
    simpl in *; apply in_range_between; exact Hc.
Qed.

Lemma regex_test_digit s : regex_test Digit s = true <-> contains digit s.
Proof.
  unfold regex_test, contains, digit. rewrite existsb_exists.
  split; intros [c [Hin Hc]]; exists c; split; auto;
    simpl in *; apply in_range_between; exact Hc.
Qed.

Lemma regex_test_special s :
  regex_test special s = true <-> contains special_character s.
Proof.
  unfold regex_test, contains, special_character, special. rewrite existsb_exists.
  split; intros [c [Hin Hc]]; exists c; split; auto; unfold class_matches in *.
  - apply existsb_exists in Hc. destruct Hc as [d [Hd Heq]].
    apply Ascii.eqb_eq in Heq. subst d. exact Hd.
  - apply existsb_exists. exists c. split; [exact Hc | apply Ascii.eqb_refl].
Qed.

(** A chain raises no message exactly when every check of it passes. *)
Lemma run_checks_nil checks s :
  run_checks checks s = [] <-> Forall (fun c => check c s = true) checks.
Proof.
  induction checks as [|c rest IH]; simpl.
  - split; auto.
  - destruct (check c s) eqn:Hc.
    + rewrite IH. split; intros Hall.
      * constructor; assumption.
      * inversion Hall; assumption.
    + split; [discriminate|]. intros Hall. inversion Hall; congruence.
Qed.

(** The five checks of a strong password are the policy. *)
Lemma strong_chain_policy m1 m2 m3 m4 m5 pw :
  run_checks [min 8 m1; regex uppercase m2; regex lowercase m3;
              regex Digit m4; regex special m5] pw = []
  <-> password_policy pw.
Proof.
  rewrite run_checks_nil. unfold password_policy.
  rewrite <- (regex_test_range "A" "Z"), <- (regex_test_range "a" "z"),
          <- regex_test_digit, <- regex_test_special.
  split.
  - intros Hall.
    inversion_clear Hall as [|? ? H1 Hall1].
    inversion_clear Hall1 as [|? ? H2 Hall2].
    inversion_clear Hall2 as [|? ? H3 Hall3].
    inversion_clear Hall3 as [|? ? H4 Hall4].
    inversion_clear Hall4 as [|? ? H5 _].
    change ((8 <=? String.length pw)%nat = true) in H1.
    apply Nat.leb_le in H1. repeat split; assumption.
  - intros (H1 & H2 & H3 & H4 & H5).
    apply Nat.leb_le in H1.
    repeat (constructor; [assumption|]). constructor.
Qed.

Lemma messages_under_app k xs ys :
  messages_under k (xs ++ ys) = messages_under k xs ++ messages_under k ys.
Proof. unfold messages_under. rewrite List.filter_app, map_app. reflexivity. Qed.

Lemma messages_under_field k name schema v :
  messages_under k (field_issues name schema v)
  = if String.eqb name k then run_checks schema v else [].
Proof.
  unfold messages_under, field_issues.
  induction (run_checks schema v) as [|m ms IH]; simpl.
  - destruct (String.eqb name k); reflexivity.
  - unfold under at 1. simpl. destruct (String.eqb name k) eqn:E; simpl.
    + rewrite IH. reflexivity.
    + exact IH.
Qed.

Lemma messages_under_single k name msg :
  messages_under k [mkIssue [name] msg] = if String.eqb name k then [msg] else [].
Proof.
  unfold messages_under. cbn [List.filter]. unfold under. cbn [path].
  destruct (String.eqb name k); reflexivity.
Qed.

(** [flatten] keeps, under each key, the messages already there followed
    by the messages of the issues filed under it. *)
Lemma flatten_fold_lookup issues : forall acc k,
  fieldErrors (fold_left flatten_step issues acc) !! k
  = match messages_under k issues with
    | [] => fieldErrors acc !! k
    | ms => Some (default [] (fieldErrors acc !! k) ++ ms)
    end.
Proof.
  induction issues as [|a rest IH]; intros acc k; [reflexivity|].
  simpl fold_left. rewrite IH. unfold messages_under. simpl List.filter.
  unfold flatten_step, under at 2.
  destruct (path a) as [|k' ps]; simpl.
  - reflexivity.
  - destruct (String.eqb k' k) eqn:E.
    + apply String.eqb_eq in E. subst k'. rewrite lookup_insert_eq. simpl.
      destruct (map Zod.message (List.filter (under k) rest)) as [|m ms].
      * reflexivity.
      * rewrite <- app_assoc. reflexivity.
    + apply String.eqb_neq in E. rewrite lookup_insert_ne by exact E.
      reflexivity.
Qed.

Lemma flatten_lookup issues k :
  fieldErrors (flatten issues) !! k = entry (messages_under k issues).
Proof.
  unfold flatten. rewrite flatten_fold_lookup. simpl.
  rewrite lookup_empty. unfold entry.
  destruct (messages_under k issues); reflexivity.
Qed.

Lemma finish_error {D : Type} issues (data : D) :
  issues <> [] -> finish issues data = ParseError issues.
Proof. destruct issues; [congruence | reflexivity]. Qed.

End ZodFacts.

(* ====================================================================== *)
(** ** How each action runs *)
(* ====================================================================== *)

Section Runs.

Context {User : Type} `{EmailGrammar}.
Implicit Types w : World (User := User).

Lemma signup_invalid values error w :
  safeParse SignUpFormSchema values = ParseError error ->
  signup values w
  = (Normal {| success := false;
               message := "Form validation error";
               zod_errors := Some (fieldErrors (flatten error)) |}, []).
Proof. intros Hparse. unfold signup, try_catch. rewrite Hparse. reflexivity. Qed.

Lemma signup_valid values data w :
  safeParse SignUpFormSchema values = ParseSuccess data ->
  signup values w
  = delegated w "[Auth] Error while sign up"
      (fun e => failure_envelope e "Error while sign up")
      (fun supabase =>
         mkDelegation (SignUp data) (failure (auth_signUp supabase data))
           {| success := true;
              message := "Account creation successful. Check email to verify.";
              zod_errors := None |}).
Proof.
  intros Hparse. unfold signup. rewrite Hparse. unfold_action.
  destruct (createClient_result w) as [supabase | [m|m]]; try reflexivity.
  simpl. destruct (auth_signUp supabase data) as [d [[m|m]|] | [m|m]]; reflexivity.
Qed.

Lemma signin_invalid values error w :
  safeParse SignInFormSchema values = ParseError error ->
  signin values w
  = (Normal {| success := false;
               message := "Form validation error";
               zod_errors := Some (fieldErrors (flatten error)) |}, []).
Proof. intros Hparse. unfold signin, try_catch. rewrite Hparse. reflexivity. Qed.

Lemma signin_valid values data w :
  safeParse SignInFormSchema values = ParseSuccess data ->
  signin values w
  = delegated w "[Auth] Sign in failed"
      (fun e => failure_envelope e "Sign in failed")
      (fun supabase =>
         mkDelegation (SignInWithPassword values)
           (failure (auth_signInWithPassword supabase values))
           {| success := true; message := "Sign in successful"; zod_errors := None |}).
Proof.
  intros Hparse. unfold signin. rewrite Hparse. unfold_action.
  destruct (createClient_result w) as [supabase | [m|m]]; try reflexivity.
  simpl. destruct (auth_signInWithPassword supabase values) as [d [[m|m]|] | [m|m]];
    reflexivity.
Qed.

Lemma signOAuth_run provider w :
  signOAuth provider w
  = delegated w "[Auth] OAuth signin error"
      (fun e => failure_envelope e "OAuth signin error")
      (fun supabase =>
         let reply := auth_signInWithOAuth supabase provider "" in
         mkDelegation (SignInWithOAuth provider "") (failure reply)
           match reply with
           | Resolved (Some _) _ =>
               {| success := true;
                  message := "OAuth signin successful";
                  zod_errors := None |}
           | _ =>
               {| success := false;
                  message := "Failed to initiate OAuth signin";
                  zod_errors := None |}
           end).
Proof.
  unfold signOAuth. unfold_action.
  destruct (createClient_result w) as [supabase | [m|m]]; try reflexivity.
  simpl.
  destruct (auth_signInWithOAuth supabase provider "") as [[d|] [[m|m]|] | [m|m]];
    reflexivity.
Qed.

Lemma forgotPassword_run email w :
  forgotPassword email w
  = delegated w "[Auth] Error occured while sending reset password link"
      (fun e => failure_envelope e "Error occured while sending reset password link")
      (fun supabase =>
         let redirectTo := interpolate (NEXT_PUBLIC_APP_URL w) +:+ "/reset-password" in
         mkDelegation (ResetPasswordForEmail (ef_email email) redirectTo)
           (failure (auth_resetPasswordForEmail supabase (ef_email email) redirectTo))
           {| success := true;
              message := "Reset link sent. Please check.";
              zod_errors := None |}).
Proof.
  unfold forgotPassword. unfold_action.
  destruct (createClient_result w) as [supabase | [m|m]]; try reflexivity.
  cbn [invoked failed_with on_success].
  destruct (auth_resetPasswordForEmail supabase (ef_email email) _)
    as [d [[m|m]|] | [m|m]]; reflexivity.
Qed.

Lemma resetPassword_run newPassword w :
  resetPassword newPassword w
  = delegated w "[Auth] Error while updating password"
      (fun e => failure_envelope e "Error while updating password")
      (fun supabase =>
         mkDelegation (UpdateUser (pf_password newPassword))
           (failure (auth_updateUser supabase (pf_password newPassword)))
           {| success := true;
              message := "Password reset successful. Please Sign in.";
              zod_errors := None |}).
Proof.
  unfold resetPassword. unfold_action.
  destruct (createClient_result w) as [supabase | [m|m]]; try reflexivity.
  simpl. destruct (auth_updateUser supabase (pf_password newPassword))
    as [d [[m|m]|] | [m|m]]; reflexivity.
Qed.

Lemma signout_run w :
  signout w
  = delegated w "[Auth] Error occured while sign out"
      (fun e => failure_envelope e "Error occured while sign out")
      (fun supabase =>
         mkDelegation SignOut (failure (auth_signOut supabase))
           {| success := true; message := "Sign out successful"; zod_errors := None |}).
Proof.
  unfold signout. unfold_action.
  destruct (createClient_result w) as [supabase | [m|m]]; try reflexivity.
  simpl. destruct (auth_signOut supabase) as [d [[m|m]|] | [m|m]]; reflexivity.
Qed.

Lemma getSession_run w :
  getSession w
  = delegated w "[Auth] Error fetching session"
      (fun e => session_failure_envelope e "Error fetching session")
      (fun supabase =>
         mkDelegation GetUser (failure (auth_getUser supabase))
           {| session_success := true;
              session_message := "Fetching user sesssion successful";
              user := match auth_getUser supabase with
                      | Resolved current _ => current
                      | Rejected _ => None
                      end |}).
Proof.
  unfold getSession. unfold_action.
  destruct (createClient_result w) as [supabase | [m|m]]; try reflexivity.
  simpl. destruct (auth_getUser supabase) as [d [[m|m]|] | [m|m]]; reflexivity.
Qed.

End Runs.

(* ====================================================================== *)
(** ** The validators of the specification *)
(* ====================================================================== *)

Section ValidatorClaims.

Context {User : Type} `{EmailGrammar}.
Implicit Types w : World (User := User).

Lemma run_checks_messages checks s m :
  In m (run_checks checks s) -> In m (map message_of checks).
Proof.
  induction checks as [|c rest IH]; simpl; [tauto|].
  destruct (check c s); simpl; intuition.
Qed.

Lemma SignUpFormSchema_issues_nil values :
  issues_of SignUpFormSchema values = []
  <-> isEmail (email values) = true /\ password_policy (password values).
Proof.
  unfold SignUpFormSchema, credentials_object, field_issues. cbn [issues_of].
  rewrite <- (strong_chain_policy
                "Password must be at least 8 characters long"
                "Password must contain at least one uppercase letter"
                "Password must contain at least one lowercase letter"
                "Password must contain at least one number"
                "Password must contain at least one special character (@$!%*?&)").
  fold SignUp_password.
  destruct (run_checks SignUp_password (password values)) as [|m ms].
  - rewrite app_nil_r. cbn [run_checks email_check check].
    destruct (isEmail (email values)); simpl; intuition congruence.
  - split.
    + intros Hnil. apply app_eq_nil in Hnil. destruct Hnil as [_ Hnil]. discriminate.
    + intros [_ Hnil]. discriminate.
Qed.

(** C6: the sign-up password chain raises no message exactly for the
    passwords with at least 8 characters, an uppercase letter, a lowercase
    letter, a digit and a character of [@$!%*?&]; the whole sign-up input
    parses exactly when, besides, its email is one for zod; and sign-up
    with the password [abc] returns the validation envelope, without a
    provider call, whose [password] entry lists exactly the minimum-length,
    uppercase, digit and special-character messages (not the lowercase
    one). *)
Theorem SignUp_password_rules :
  (forall pw, run_checks SignUp_password pw = [] <-> password_policy pw)
  /\ (forall values,
        (exists data, safeParse SignUpFormSchema values = ParseSuccess data)
        <-> isEmail (email values) = true /\ password_policy (password values))
  /\ (forall address others w,
        exists errors,
          signup (mkCredentials address "abc" others) w
          = (Normal {| success := false;
                       message := "Form validation error";
                       zod_errors := Some errors |}, [])
          /\ errors !! "password"
             = Some [ "Password must be at least 8 characters long";
                      "Password must contain at least one uppercase letter";
                      "Password must contain at least one number";
                      "Password must contain at least one special character (@$!%*?&)" ]).
Proof.
  split; [|split].
  - intros pw. apply strong_chain_policy.
  - intros values. rewrite <- SignUpFormSchema_issues_nil. unfold safeParse.
    destruct (issues_of SignUpFormSchema values) as [|i rest]; simpl.
    + split; eauto.
    + split; [intros [data Hdata]; discriminate | discriminate].
  - intros address others w.
    set (values := mkCredentials address "abc" others).
    assert (Hunder : messages_under "password" (issues_of SignUpFormSchema values)
                     = run_checks SignUp_password "abc").
    { unfold SignUpFormSchema, credentials_object. cbn [issues_of].
      rewrite messages_under_app, !messages_under_field.
      reflexivity. }
    destruct (issues_of SignUpFormSchema values) as [|i rest] eqn:Hissues.
    { discriminate Hunder. }
    exists (fieldErrors (flatten (i :: rest))). split.
    + apply signup_invalid. unfold safeParse. rewrite Hissues. reflexivity.
    + rewrite flatten_lookup, Hunder. reflexivity.
Qed.

(** C3, as amended: for every reset-password input whose confirmation
    differs from its password, [ResetPasswordSchema] fails; the field-error
    map files exactly [Password don't match] under [confirmPassword]; under
    [password] it files the messages of the password rules the password
    breaks (none of which is the mismatch message), so that the failure is
    on [confirmPassword] alone whenever the password meets the rules. *)
Theorem ResetPasswordSchema_mismatch (values : PasswordForm) :
  pf_confirmPassword values <> pf_password values ->
  exists error,
    safeParse ResetPasswordSchema values = ParseError error
    /\ fieldErrors (flatten error) !! "confirmPassword" = Some ["Password don't match"]
    /\ fieldErrors (flatten error) !! "password"
       = entry (run_checks ResetPassword_password (pf_password values))
    /\ ~ In "Password don't match"
            (run_checks ResetPassword_password (pf_password values))
    /\ (password_policy (pf_password values) ->
        fieldErrors (flatten error) = {[ "confirmPassword" := ["Password don't match"] ]}).
Proof.
  intros Hdiff.
  assert (Hneq : String.eqb (pf_password values) (pf_confirmPassword values) = false).
  { apply String.eqb_neq. congruence. }
  assert (Hissues : issues_of ResetPasswordSchema values
                    = field_issues "password" ResetPassword_password (pf_password values)
                      ++ [mkIssue ["confirmPassword"] "Password don't match"]).
  { unfold ResetPasswordSchema, refinement, password_object.
    cbn [issues_of output_of pf_password pf_confirmPassword].
    rewrite Hneq. unfold field_issues at 2. cbn [run_checks map].
    rewrite app_nil_r. reflexivity. }
  assert (Hunder : forall k,
             messages_under k (issues_of ResetPasswordSchema values)
             = (if String.eqb "password" k
                then run_checks ResetPassword_password (pf_password values) else [])
               ++ (if String.eqb "confirmPassword" k then ["Password don't match"] else [])).
  { intros k.
    rewrite Hissues, messages_under_app, messages_under_field, messages_under_single.
    reflexivity. }
  exists (issues_of ResetPasswordSchema values).
  split; [|split; [|split; [|split]]].
  - apply finish_error. rewrite Hissues. intros Hnil.
    apply app_eq_nil in Hnil. destruct Hnil as [_ Hnil]. discriminate.
  - rewrite flatten_lookup, Hunder, String.eqb_refl.
    change (String.eqb "password" "confirmPassword") with false. reflexivity.
  - rewrite flatten_lookup, Hunder, String.eqb_refl.
    change (String.eqb "confirmPassword" "password") with false.
    cbv iota. rewrite app_nil_r. reflexivity.
  - intros Hin. apply run_checks_messages in Hin. simpl in Hin.
    intuition discriminate.
  - intros Hpolicy.
    apply (strong_chain_policy
             "Be at least 8 characters long"
             "Must contain at least one uppercase letter"
             "Must contain at least one lowercase letter"
             "Must contain at least one number"
             "Must contain at least one special character (@$!%*?&)") in Hpolicy.
    fold ResetPassword_password in Hpolicy.
    apply map_eq. intros k. rewrite flatten_lookup, Hunder, Hpolicy.
    replace (if String.eqb "password" k then [] else []) with (@nil string)
      by (destruct (String.eqb "password" k); reflexivity).
    rewrite app_nil_l.
    destruct (String.eqb_spec "confirmPassword" k) as [<- | Hk].
    + rewrite lookup_singleton_eq. reflexivity.
    + rewrite lookup_singleton_ne by exact Hk. reflexivity.
Qed.

End ValidatorClaims.

(* ====================================================================== *)
(** ** The actions of the specification *)
(* ====================================================================== *)

Section DelegatedFacts.

Context {User A : Type}.
Variables (w : World (User := User)) (label : string) (on_failure : Thrown -> A).
Variable call : SupabaseClient (User := User) -> Delegation A.

Lemma delegated_returns :
  exists r, fst (delegated w label on_failure call) = Normal r.
Proof.
  unfold delegated.
  destruct (createClient_result w) as [supabase | e]; [|eauto].
  destruct (failed_with (call supabase)); eauto.
Qed.

(** At most one provider call, and exactly one once there is a client. *)
Lemma delegated_calls :
  provider_calls (snd (delegated w label on_failure call))
  = match createClient_result w with
    | Normal supabase => [invoked (call supabase)]
    | Abrupt _ => []
    end.
Proof.
  unfold delegated.
  destruct (createClient_result w) as [supabase | e]; [|reflexivity].
  destruct (failed_with (call supabase)); reflexivity.
Qed.


(** A log entry is written by the [catch] clause alone, with what it
    caught; the envelope is then the failure envelope of that. *)
Lemma delegated_caught l e :
  In (ConsoleError l e) (snd (delegated w label on_failure call)) ->
  fst (delegated w label on_failure call) = Normal (on_failure e).
Proof.
  unfold delegated.
  destruct (createClient_result w) as [supabase | e'].
  - destruct (failed_with (call supabase)) as [e'|]; simpl.
    + intros [Heq | [Heq | []]]; [discriminate|]. congruence.
    + intros [Heq | []]. discriminate.
  - simpl. intros [Heq | []]. congruence.
Qed.

Lemma delegated_demotes :
  demotes_faults w (delegated w label on_failure call) on_failure
    (fun supabase => failed_with (call supabase)).
Proof.
  unfold demotes_faults. split; [apply delegated_returns|]. unfold delegated. split.
  - intros e Hclient. rewrite Hclient. reflexivity.
  - intros supabase e Hclient Hfailed. rewrite Hclient, Hfailed. reflexivity.
Qed.

(** Every envelope of a delegating action is [on_failure] of something or
    the success envelope of the call. *)
Lemma delegated_envelope r :
  fst (delegated w label on_failure call) = Normal r ->
  (exists e, r = on_failure e)
  \/ (exists supabase,
        createClient_result w = Normal supabase
        /\ failed_with (call supabase) = None
        /\ r = on_success (call supabase)).
Proof.
  unfold delegated.
  destruct (createClient_result w) as [supabase | e'].
  - destruct (failed_with (call supabase)) as [e'|] eqn:Hfailed; simpl.
    + intros [= <-]. left. eauto.
    + intros [= <-]. right. eauto.
  - simpl. intros [= <-]. left. eauto.
Qed.

End DelegatedFacts.

Section ActionClaims.

Context {User : Type} `{EmailGrammar}.
Implicit Types w : World (User := User).


(** C5: in every world (whatever [createClient()] and the provider do,
    throwing anything included) and on every input, each of the seven
    actions completes normally, with an envelope, and never by throwing;
    whatever was thrown inside it reached its [catch] clause (which logs
    it) and was turned into the failure envelope of the action; and every
    fault is so demoted: when [createClient()] throws [e], and when the
    provider's reply carries the error [e] or is rejected with [e], be it an
    [AuthError] or not, the action returns its failure envelope of [e]
    ([success: false], the message of an [AuthError], the action's fallback
    otherwise). *)
Theorem actions_never_throw w :
  ((forall values, exists r,
      fst (signup values w) = Normal r
      /\ forall l e, In (ConsoleError l e) (snd (signup values w)) ->
                     r = failure_envelope e "Error while sign up")
  /\ (forall values, exists r,
      fst (signin values w) = Normal r
      /\ forall l e, In (ConsoleError l e) (snd (signin values w)) ->
                     r = failure_envelope e "Sign in failed")
  /\ (forall provider, exists r,
      fst (signOAuth provider w) = Normal r
      /\ forall l e, In (ConsoleError l e) (snd (signOAuth provider w)) ->
                     r = failure_envelope e "OAuth signin error")
  /\ (forall email, exists r,
      fst (forgotPassword email w) = Normal r
      /\ forall l e, In (ConsoleError l e) (snd (forgotPassword email w)) ->
                     r = failure_envelope e
                           "Error occured while sending reset password link")
  /\ (forall newPassword, exists r,
      fst (resetPassword newPassword w) = Normal r
      /\ forall l e, In (ConsoleError l e) (snd (resetPassword newPassword w)) ->
                     r = failure_envelope e "Error while updating password")
  /\ (exists r,
      fst (signout w) = Normal r
      /\ forall l e, In (ConsoleError l e) (snd (signout w)) ->
                     r = failure_envelope e "Error occured while sign out")
  /\ (exists r,
      fst (getSession w) = Normal r
      /\ forall l e, In (ConsoleError l e) (snd (getSession w)) ->
                     r = session_failure_envelope e "Error fetching session"))
  /\ (forall values data,
        safeParse SignUpFormSchema values = ParseSuccess data ->
        demotes_faults w (signup values w)
          (fun e => failure_envelope e "Error while sign up")
          (fun supabase => failure (auth_signUp supabase data)))
  /\ (forall values data,
        safeParse SignInFormSchema values = ParseSuccess data ->
        demotes_faults w (signin values w)
          (fun e => failure_envelope e "Sign in failed")
          (fun supabase => failure (auth_signInWithPassword supabase values)))
  /\ (forall provider,
        demotes_faults w (signOAuth provider w)
          (fun e => failure_envelope e "OAuth signin error")
          (fun supabase => failure (auth_signInWithOAuth supabase provider "")))
  /\ (forall email,
        demotes_faults w (forgotPassword email w)
          (fun e => failure_envelope e "Error occured while sending reset password link")
          (fun supabase =>
             failure (auth_resetPasswordForEmail supabase (ef_email email)
                        (interpolate (NEXT_PUBLIC_APP_URL w) +:+ "/reset-password"))))
  /\ (forall newPassword,
        demotes_faults w (resetPassword newPassword w)
          (fun e => failure_envelope e "Error while updating password")
          (fun supabase => failure (auth_updateUser supabase (pf_password newPassword))))
  /\ demotes_faults w (signout w)
       (fun e => failure_envelope e "Error occured while sign out")
       (fun supabase => failure (auth_signOut supabase))
  /\ demotes_faults w (getSession w)
       (fun e => session_failure_envelope e "Error fetching session")
       (fun supabase => failure (auth_getUser supabase)).
Proof.
  split.
  {
  assert (Hdelegated : forall (A : Type) label (on_failure : Thrown -> A) call,
             exists r,
               fst (delegated w label on_failure call) = Normal r
               /\ forall l e,
                    In (ConsoleError l e) (snd (delegated w label on_failure call)) ->
                    r = on_failure e).
  { intros A label on_failure call.
    destruct (delegated_returns w label on_failure call) as [r Hr].
    exists r. split; [exact Hr|]. intros l e Hin.
    apply delegated_caught in Hin. congruence. }
  split; [|split; [|split; [|split; [|split; [|split]]]]].
  - intros values.
    destruct (safeParse SignUpFormSchema values) as [data | error] eqn:Hparse.
    + rewrite (signup_valid _ _ _ Hparse). apply Hdelegated.
    + rewrite (signup_invalid _ _ _ Hparse). eexists. split; [reflexivity|].
      intros l e [].
  - intros values.
    destruct (safeParse SignInFormSchema values) as [data | error] eqn:Hparse.
    + rewrite (signin_valid _ _ _ Hparse). apply Hdelegated.
    + rewrite (signin_invalid _ _ _ Hparse). eexists. split; [reflexivity|].
      intros l e [].
  - intros provider. rewrite signOAuth_run. apply Hdelegated.
  - intros email. rewrite forgotPassword_run. apply Hdelegated.
  - intros newPassword. rewrite resetPassword_run. apply Hdelegated.
  - rewrite signout_run. apply Hdelegated.
  - rewrite getSession_run. apply Hdelegated. }
  split; [|split; [|split; [|split; [|split; [|split]]]]].
  - intros values data Hparse. rewrite (signup_valid _ _ _ Hparse).
    exact (delegated_demotes _ _ _ _).
  - intros values data Hparse. rewrite (signin_valid _ _ _ Hparse).
    exact (delegated_demotes _ _ _ _).
  - intros provider. rewrite signOAuth_run. exact (delegated_demotes _ _ _ _).
  - intros email. rewrite forgotPassword_run. exact (delegated_demotes _ _ _ _).
  - intros newPassword. rewrite resetPassword_run. exact (delegated_demotes _ _ _ _).
  - rewrite signout_run. exact (delegated_demotes _ _ _ _).
  - rewrite getSession_run. exact (delegated_demotes _ _ _ _).
Qed.

(** C7: when [createClient()] gives a client and its [getUser] resolves
    with no error and no user, [getSession] returns [success: true] with
    [user: null]. *)
Theorem getSession_signed_out w supabase :
  createClient_result w = Normal supabase ->
  auth_getUser supabase = Resolved None None ->
  getSession w
  = (Normal {| session_success := true;
               session_message := "Fetching user sesssion successful";
               user := None |},
     [ProviderCall GetUser None]).
Proof.
  intros Hclient Hreply. rewrite getSession_run. unfold delegated.
  rewrite Hclient. cbn [failed_with invoked on_success]. rewrite Hreply.
  reflexivity.
Qed.

(** C8: an envelope of [getSession] with [success: false] has [user: null]. *)
Theorem getSession_failure_has_no_user w r :
  fst (getSession w) = Normal r ->
  session_success r = false ->
  user r = None.
Proof.
  rewrite getSession_run. intros Hr Hfalse.
  apply delegated_envelope in Hr.
  destruct Hr as [[e ->] | (supabase & _ & _ & ->)].
  - reflexivity.
  - discriminate Hfalse.
Qed.

Lemma validated_zod_errors schema values data label fallback call w :
  safeParse schema values = ParseSuccess data ->
  (forall supabase, zod_errors (on_success (call supabase)) = None) ->
  zod_errors_invariant schema values
    (delegated w label (fun e => failure_envelope e fallback) call).
Proof.
  intros Hparse Hnone.
  destruct (delegated_returns w label (fun e => failure_envelope e fallback) call)
    as [r Hr].
  assert (Hzod : zod_errors r = None).
  { apply delegated_envelope in Hr.
    destruct Hr as [[e ->] | (supabase & _ & _ & ->)]; [reflexivity | apply Hnone]. }
  exists r. split; [exact Hr|]. rewrite Hzod.
  split; [|split; [|split]].
  - split.
    + intros [x Hx]. discriminate.
    + intros [error Herror]. congruence.
  - intros [x Hx]. discriminate.
  - reflexivity.
  - reflexivity.
Qed.

(** C9: for [signup] and [signin], the returned envelope carries
    [zod_errors] exactly when the schema rejected the input; an envelope
    that carries them has [success: false] and the message
    [Form validation error]; an envelope with [success: true], and the
    envelope of a failed provider call, carry none. *)
Theorem zod_errors_iff_validation_failed w values :
  zod_errors_invariant SignUpFormSchema values (signup values w)
  /\ zod_errors_invariant SignInFormSchema values (signin values w).
Proof.
  split.
  - destruct (safeParse SignUpFormSchema values) as [data | error] eqn:Hparse.
    + rewrite (signup_valid _ _ _ Hparse).
      eapply validated_zod_errors; [exact Hparse | reflexivity].
    + rewrite (signup_invalid _ _ _ Hparse). unfold zod_errors_invariant.
      eexists. split; [reflexivity|]. cbn [zod_errors success message fst snd].
      repeat split; eauto; try discriminate. intros op e [].
  - destruct (safeParse SignInFormSchema values) as [data | error] eqn:Hparse.
    + rewrite (signin_valid _ _ _ Hparse).
      eapply validated_zod_errors; [exact Hparse | reflexivity].
    + rewrite (signin_invalid _ _ _ Hparse). unfold zod_errors_invariant.
      eexists. split; [reflexivity|]. cbn [zod_errors success message fst snd].
      repeat split; eauto; try discriminate. intros op e [].
Qed.

End ActionClaims.

Section RedirectClaims.

Context {User : Type} `{EmailGrammar}.
Implicit Types w : World (User := User).

(** C10: [signOAuth] makes no provider call but the OAuth initiation for
    the given provider with [redirectTo] the empty string, and makes it
    once there is a client; the application URL of the environment is
    read by [forgotPassword], which appends [/reset-password] to it for
    its redirect, and by no other action: changing it changes neither
    what the others return nor the calls they make. *)
Theorem signOAuth_redirect_and_app_url provider w :
  provider_calls (snd (signOAuth provider w))
  = match createClient_result w with
    | Normal _ => [SignInWithOAuth provider ""]
    | Abrupt _ => []
    end
  /\ (forall url, signOAuth provider (with_app_url url w) = signOAuth provider w)
  /\ (forall url values, signup values (with_app_url url w) = signup values w)
  /\ (forall url values, signin values (with_app_url url w) = signin values w)
  /\ (forall url newPassword,
        resetPassword newPassword (with_app_url url w) = resetPassword newPassword w)
  /\ (forall url, signout (with_app_url url w) = signout w)
  /\ (forall url, getSession (with_app_url url w) = getSession w)
  /\ (forall email,
        provider_calls (snd (forgotPassword email w))
        = match createClient_result w with
          | Normal _ =>
              [ResetPasswordForEmail (ef_email email)
                 (interpolate (NEXT_PUBLIC_APP_URL w) +:+ "/reset-password")]
          | Abrupt _ => []
          end).
Proof.
  split; [|repeat split].
  - rewrite signOAuth_run, delegated_calls.
    destruct (createClient_result w); reflexivity.
  - intros url. rewrite !signOAuth_run. reflexivity.
  - intros url values.
    destruct (safeParse SignUpFormSchema values) as [data | error] eqn:Hparse.
    + rewrite !(signup_valid _ _ _ Hparse). reflexivity.
    + rewrite !(signup_invalid _ _ _ Hparse). reflexivity.
  - intros url values.
    destruct (safeParse SignInFormSchema values) as [data | error] eqn:Hparse.
    + rewrite !(signin_valid _ _ _ Hparse). reflexivity.
    + rewrite !(signin_invalid _ _ _ Hparse). reflexivity.
  - intros url newPassword. rewrite !resetPassword_run. reflexivity.
  - intros url. rewrite !signout_run. reflexivity.
  - intros url. rewrite !getSession_run. reflexivity.
  - intros email. rewrite forgotPassword_run, delegated_calls.
    destruct (createClient_result w); reflexivity.
Qed.

(** C2, at [signin]: on an input its schema accepts, [signin] makes one
    provider call, and hands it the object it received, which differs from
    the parsed value as soon as that object has a property the schema does
    not declare. *)
Theorem signin_forwards_received_object w supabase values data :
  safeParse SignInFormSchema values = ParseSuccess data ->
  createClient_result w = Normal supabase ->
  extra values <> [] ->
  provider_calls (snd (signin values w)) = [SignInWithPassword values]
  /\ data = mkCredentials (email values) (password values) []
  /\ values <> data.
Proof.
  intros Hparse Hclient Hextra.
  assert (Hdata : data = mkCredentials (email values) (password values) []).
  { unfold safeParse in Hparse.
    destruct (issues_of SignInFormSchema values); [|discriminate].
    simpl in Hparse. congruence. }
  split; [|split].
  - rewrite (signin_valid _ _ _ Hparse), delegated_calls, Hclient. reflexivity.
  - exact Hdata.
  - intros Heq. apply Hextra. rewrite Heq, Hdata. reflexivity.
Qed.

(** X1: [signup] and [signin] return the validation envelope, and leave an
    empty trace (no provider call, no log entry), on an input their schema
    rejects. *)
Theorem validation_failure_short_circuits w values error :
  (safeParse SignUpFormSchema values = ParseError error ->
   signup values w
   = (Normal {| success := false;
                message := "Form validation error";
                zod_errors := Some (fieldErrors (flatten error)) |}, []))
  /\ (safeParse SignInFormSchema values = ParseError error ->
      signin values w
      = (Normal {| success := false;
                   message := "Form validation error";
                   zod_errors := Some (fieldErrors (flatten error)) |}, [])).
Proof. split; [apply signup_invalid | apply signin_invalid]. Qed.

(** X2: with a client, [signup] makes one provider call on an input its
    schema accepts, with the parsed value; [forgotPassword] and
    [resetPassword] make one on every input, with the email and the password
    of that input. *)
Theorem accepted_input_is_delegated_once w supabase :
  createClient_result w = Normal supabase ->
  (forall values data,
      safeParse SignUpFormSchema values = ParseSuccess data ->
      provider_calls (snd (signup values w)) = [SignUp data]
      /\ data = mkCredentials (email values) (password values) [])
  /\ (forall email,
      provider_calls (snd (forgotPassword email w))
      = [ResetPasswordForEmail (ef_email email)
           (interpolate (NEXT_PUBLIC_APP_URL w) +:+ "/reset-password")])
  /\ (forall newPassword,
      provider_calls (snd (resetPassword newPassword w))
      = [UpdateUser (pf_password newPassword)]).
Proof.
  intros Hclient. split; [|split].
  - intros values data Hparse. split.
    + rewrite (signup_valid _ _ _ Hparse), delegated_calls, Hclient. reflexivity.
    + unfold safeParse in Hparse.
      destruct (issues_of SignUpFormSchema values); [|discriminate].
      simpl in Hparse. congruence.
  - intros email. rewrite forgotPassword_run, delegated_calls, Hclient. reflexivity.
  - intros newPassword. rewrite resetPassword_run, delegated_calls, Hclient.
    reflexivity.
Qed.

End RedirectClaims.

(** C1, at [resetPassword] and [forgotPassword]: the password [abc] breaks
    four rules of [ResetPasswordSchema], yet [resetPassword] hands it to the
    provider and, the provider accepting it, reports success; in every world
    both actions make their provider call whatever their input is. *)
Theorem resetPassword_runs_no_validator :
  (exists error,
      safeParse ResetPasswordSchema (mkPasswordForm "abc" "abc" []) = ParseError error
      /\ fieldErrors (flatten error)
         = {[ "password" := [ "Be at least 8 characters long";
                              "Must contain at least one uppercase letter";
                              "Must contain at least one number";
                              "Must contain at least one special character (@$!%*?&)" ] ]})
  /\ resetPassword (mkPasswordForm "abc" "abc" []) accepting_world
     = (Normal {| success := true;
                  message := "Password reset successful. Please Sign in.";
                  zod_errors := None |},
        [ProviderCall (UpdateUser "abc") None])
  /\ (forall (User : Type) (w : World (User := User)) newPassword,
        provider_calls (snd (resetPassword newPassword w))
        = match createClient_result w with
          | Normal _ => [UpdateUser (pf_password newPassword)]
          | Abrupt _ => []
          end)
  /\ (forall (User : Type) (w : World (User := User)) email,
        provider_calls (snd (forgotPassword email w))
        = match createClient_result w with
          | Normal _ =>
              [ResetPasswordForEmail (ef_email email)
                 (interpolate (NEXT_PUBLIC_APP_URL w) +:+ "/reset-password")]
          | Abrupt _ => []
          end).
Proof.
  split; [|split; [|split]].
  - eexists. split; [reflexivity|]. vm_compute. reflexivity.
  - reflexivity.
  - intros User w newPassword. rewrite resetPassword_run, delegated_calls.
    destruct (createClient_result w); reflexivity.
  - intros User w email. rewrite forgotPassword_run, delegated_calls.
    destruct (createClient_result w); reflexivity.
Qed.

(** C3, as stated, fails: with the password [abc] and the confirmation
    [abd], the validator files the failure under [password] too; and the
    [resetPassword] action, which runs no validator, reports no validation
    failure at all on this input. *)
Lemma ResetPasswordSchema_mismatch_weak_password :
  pf_confirmPassword (mkPasswordForm "abc" "abd" []) <> pf_password (mkPasswordForm "abc" "abd" [])
  /\ (exists error,
       safeParse ResetPasswordSchema (mkPasswordForm "abc" "abd" []) = ParseError error
       /\ fieldErrors (flatten error) !! "password"
          = Some [ "Be at least 8 characters long";
                   "Must contain at least one uppercase letter";
                   "Must contain at least one number";
                   "Must contain at least one special character (@$!%*?&)" ]
       /\ fieldErrors (flatten error)
          <> {[ "confirmPassword" := ["Password don't match"] ]})
  /\ resetPassword (mkPasswordForm "abc" "abd" []) accepting_world
     = (Normal {| success := true;
                  message := "Password reset successful. Please Sign in.";
                  zod_errors := None |},
        [ProviderCall (UpdateUser "abc") None]).
Proof.
  split; [discriminate|]. split; [|reflexivity].
  eexists. split; [reflexivity|]. split; [vm_compute; reflexivity|].
  intros Heq.
  apply (f_equal (fun m : gmap string (list string) => m !! "password")) in Heq.
  vm_compute in Heq. discriminate Heq.
Qed.

(* ====================================================================== *)
(** ** The statements at sample inputs *)
(* ====================================================================== *)

(** The specification's own reset-password example: the failure is on
    [confirmPassword] alone. *)
Lemma ResetPasswordSchema_mismatch_example :
  exists error,
    safeParse ResetPasswordSchema (mkPasswordForm "Abcdef1!" "Abcdef2!" []) = ParseError error
    /\ fieldErrors (flatten error) = {[ "confirmPassword" := ["Password don't match"] ]}.
Proof.
  destruct (ResetPasswordSchema_mismatch (mkPasswordForm "Abcdef1!" "Abcdef2!" []))
    as (error & Hparse & _ & _ & _ & Hsolely).
  - discriminate.
  - exists error. split; [exact Hparse|]. apply Hsolely.
    apply (proj1 (strong_chain_policy "" "" "" "" "" "Abcdef1!")). reflexivity.
Defined.

(** A sign-in object with a [phone] property reaches the provider with it. *)
Lemma signin_forwards_received_object_example :
  provider_calls (snd (signin (H := sample_grammar) overfull_credentials accepting_world))
  = [SignInWithPassword overfull_credentials]
  /\ mkCredentials "a@b.com" "longpassword1" []
     = mkCredentials (email overfull_credentials) (password overfull_credentials) []
  /\ overfull_credentials <> mkCredentials "a@b.com" "longpassword1" [].
Proof.
  apply (signin_forwards_received_object (H := sample_grammar)
           accepting_world accepting_client overfull_credentials
           (mkCredentials "a@b.com" "longpassword1" [])).
  - reflexivity.
  - reflexivity.
  - discriminate.
Defined.


Lemma getSession_signed_out_example :
  getSession accepting_world
  = (Normal {| session_success := true;
               session_message := "Fetching user sesssion successful";
               user := None |},
     [ProviderCall GetUser None]).
Proof.
  apply (getSession_signed_out accepting_world accepting_client); reflexivity.
Defined.

Lemma getSession_failure_has_no_user_example :
  user (session_failure_envelope (User := string)
          (OtherThrown "fetch failed") "Error fetching session") = None.
Proof.
  apply (getSession_failure_has_no_user (refusing_world (OtherThrown "fetch failed")));
    reflexivity.
Defined.

(** Sign-in with a short password: the envelope carries [zod_errors]. *)
Lemma zod_errors_iff_validation_failed_example :
  zod_errors_invariant (SignInFormSchema (H := sample_grammar))
    (mkCredentials "a@b.com" "short" [])
    (signin (H := sample_grammar) (mkCredentials "a@b.com" "short" []) accepting_world).
Proof.
  exact (proj2 (zod_errors_iff_validation_failed (H := sample_grammar)
                  accepting_world (mkCredentials "a@b.com" "short" []))).
Defined.

Lemma validation_failure_short_circuits_example :
  signin (H := sample_grammar) (mkCredentials "a@b.com" "short" []) accepting_world
  = (Normal {| success := false;
               message := "Form validation error";
               zod_errors := Some {[ "password" := ["Be at least 8 characters long"] ]} |},
     []).
Proof.
  apply (proj2 (validation_failure_short_circuits (H := sample_grammar) accepting_world
                  (mkCredentials "a@b.com" "short" [])
                  [mkIssue ["password"] "Be at least 8 characters long"])).
  reflexivity.
Defined.

Lemma accepted_input_is_delegated_once_example :
  provider_calls
    (snd (signup (H := sample_grammar) (mkCredentials "a@b.com" "Abcdef1!" [("phone", "1")])
            accepting_world))
  = [SignUp (mkCredentials "a@b.com" "Abcdef1!" [])].
Proof.
  apply (proj1 (accepted_input_is_delegated_once (H := sample_grammar)
                  accepting_world accepting_client eq_refl)).
  reflexivity.
Defined.


(* ====================================================================== *)
(** ** More on the schemas *)
(* ====================================================================== *)

Section SchemaFacts.

Context `{EmailGrammar}.

Lemma safeParse_success {T : Type} (schema : ZodObject T) values data :
  safeParse schema values = ParseSuccess data
  <-> issues_of schema values = [] /\ data = output_of schema values.
Proof.
  unfold safeParse, finish.
  destruct (issues_of schema values) as [|i rest].
  - split; [intros [= <-]; auto | intros [_ ->]; reflexivity].
  - split; [discriminate | intros [Hnil _]; discriminate].
Qed.

Lemma safeParse_accepts {T : Type} (schema : ZodObject T) values :
  (exists data, safeParse schema values = ParseSuccess data)
  <-> issues_of schema values = [].
Proof.
  split.
  - intros [data Hdata]. apply safeParse_success in Hdata. tauto.
  - intros Hnil. exists (output_of schema values). apply safeParse_success. auto.
Qed.

Lemma field_issues_nil name schema v :
  field_issues name schema v = [] <-> run_checks schema v = [].
Proof.
  unfold field_issues. destruct (run_checks schema v); simpl; split; congruence.
Qed.

Lemma email_chain msg v : run_checks [email_check msg] v = [] <-> isEmail v = true.
Proof.
  cbn [run_checks email_check check message_of].
  destruct (isEmail v); split; congruence.
Qed.

Lemma email_chain_messages msg v :
  run_checks [email_check msg] v = if isEmail v then [] else [msg].
Proof. cbn [run_checks email_check check message_of]. destruct (isEmail v); reflexivity. Qed.

Lemma min_chain n msg v : run_checks [min n msg] v = [] <-> (n <= String.length v)%nat.
Proof.
  cbn [run_checks min check message_of]. rewrite <- Nat.leb_le.
  destruct (n <=? String.length v)%nat; split; congruence.
Qed.

Lemma refinement_issues_nil {T : Type} (schema : ZodObject T) pred msg at_path values :
  issues_of (refinement schema pred msg at_path) values = []
  <-> issues_of schema values = [] /\ pred (output_of schema values) = true.
Proof.
  unfold refinement. cbn [issues_of].
  destruct (pred (output_of schema values)).
  - rewrite app_nil_r. tauto.
  - split.
    + intros Hnil. apply app_eq_nil in Hnil. destruct Hnil as [_ Hnil]. discriminate.
    + intros [_ Hfalse]. discriminate.
Qed.

Lemma app_nil_iff {A : Type} (xs ys : list A) : xs ++ ys = [] <-> xs = [] /\ ys = [].
Proof.
  split.
  - apply app_eq_nil.
  - intros [-> ->]. reflexivity.
Qed.

Lemma policy_chain_SignUpDoubleCheck pw :
  run_checks SignUpDoubleCheck_password pw = [] <-> password_policy pw.
Proof. apply strong_chain_policy. Qed.

Lemma policy_chain_ResetPassword pw :
  run_checks ResetPassword_password pw = [] <-> password_policy pw.
Proof. apply strong_chain_policy. Qed.

Lemma policy_chain_SignUp pw :
  run_checks SignUp_password pw = [] <-> password_policy pw.
Proof. apply strong_chain_policy. Qed.

(** The field-error map of an object of [email] and [password]. *)
Lemma credentials_field_errors email_schema password_schema values k :
  field_errors_of (credentials_object email_schema password_schema) values !! k
  = entry ((if String.eqb "email" k then run_checks email_schema (email values) else [])
           ++ (if String.eqb "password" k
               then run_checks password_schema (password values) else [])).
Proof.
  unfold field_errors_of, credentials_object. cbn [issues_of].
  rewrite flatten_lookup, messages_under_app, !messages_under_field. reflexivity.
Qed.

(** X3: [SignUpDoubleCheckFormSchema] accepts an input exactly when its
    email is one for zod, its password meets the password rule and its
    confirmation is string-equal to the password, that is, exactly when
    [SignUpFormSchema] accepts its email and password and the confirmation
    matches; on a rejected input the field-error map files the email
    message under [email] iff the email is bad, the broken password rules
    under [password], and [Password don't match] under [confirmPassword] iff
    the two passwords differ. *)
Theorem SignUpDoubleCheckFormSchema_accepts (values : SignUpDoubleCheckForm) :
  ((exists data, safeParse SignUpDoubleCheckFormSchema values = ParseSuccess data)
   <-> isEmail (dc_email values) = true
       /\ password_policy (dc_password values)
       /\ dc_confirmPassword values = dc_password values)
  /\ ((exists data, safeParse SignUpDoubleCheckFormSchema values = ParseSuccess data)
      <-> (exists data,
             safeParse SignUpFormSchema
               (mkCredentials (dc_email values) (dc_password values) (dc_extra values))
             = ParseSuccess data)
          /\ dc_confirmPassword values = dc_password values)
  /\ field_errors_of SignUpDoubleCheckFormSchema values !! "email"
     = (if isEmail (dc_email values) then None else Some ["Please enter a valid email"])
  /\ field_errors_of SignUpDoubleCheckFormSchema values !! "password"
     = entry (run_checks SignUpDoubleCheck_password (dc_password values))
  /\ field_errors_of SignUpDoubleCheckFormSchema values !! "confirmPassword"
     = (if String.eqb (dc_password values) (dc_confirmPassword values)
        then None else Some ["Password don't match"]).
Proof.
  assert (Haccepts :
            (exists data, safeParse SignUpDoubleCheckFormSchema values = ParseSuccess data)
            <-> isEmail (dc_email values) = true
                /\ password_policy (dc_password values)
                /\ dc_confirmPassword values = dc_password values).
  { rewrite safeParse_accepts. unfold SignUpDoubleCheckFormSchema.
    rewrite refinement_issues_nil. unfold confirmed_credentials_object.
    cbn [issues_of output_of dc_password dc_confirmPassword].
    rewrite !app_nil_iff, !field_issues_nil, email_chain, policy_chain_SignUpDoubleCheck.
    rewrite String.eqb_eq. cbn [run_checks]. intuition congruence. }
  assert (Hunder : forall k,
             field_errors_of SignUpDoubleCheckFormSchema values !! k
             = entry ((if String.eqb "email" k
                       then (if isEmail (dc_email values) then []
                             else ["Please enter a valid email"]) else [])
                      ++ (if String.eqb "password" k
                          then run_checks SignUpDoubleCheck_password (dc_password values)
                          else [])
                      ++ (if String.eqb "confirmPassword" k then [] else [])
                      ++ (if String.eqb (dc_password values) (dc_confirmPassword values)
                          then []
                          else if String.eqb "confirmPassword" k
                               then ["Password don't match"] else []))).
  { intros k. unfold field_errors_of, SignUpDoubleCheckFormSchema, refinement,
      confirmed_credentials_object.
    cbn [issues_of output_of dc_password dc_confirmPassword].
    rewrite flatten_lookup, !messages_under_app, !messages_under_field,
      email_chain_messages.
    destruct (String.eqb (dc_password values) (dc_confirmPassword values));
      rewrite ?messages_under_single, <- ?app_assoc; reflexivity. }
  split; [exact Haccepts|]. split; [|split; [|split]].
  - rewrite Haccepts, safeParse_accepts. unfold SignUpFormSchema, credentials_object.
    cbn [issues_of email password].
    rewrite app_nil_iff, !field_issues_nil, email_chain, policy_chain_SignUp. tauto.
  - rewrite Hunder, String.eqb_refl.
    change (String.eqb "password" "email") with false.
    change (String.eqb "confirmPassword" "email") with false.
    destruct (isEmail (dc_email values));
      destruct (String.eqb (dc_password values) (dc_confirmPassword values)); reflexivity.
  - rewrite Hunder, String.eqb_refl.
    change (String.eqb "email" "password") with false.
    change (String.eqb "confirmPassword" "password") with false.
    cbv iota. rewrite app_nil_l.
    destruct (String.eqb (dc_password values) (dc_confirmPassword values));
      rewrite !app_nil_r; reflexivity.
  - rewrite Hunder, String.eqb_refl.
    change (String.eqb "email" "confirmPassword") with false.
    change (String.eqb "password" "confirmPassword") with false.
    destruct (String.eqb (dc_password values) (dc_confirmPassword values)); reflexivity.
Qed.

(** X4: [SignInFormSchema] accepts an input exactly when its email is one
    for zod and its password has at least 8 characters: it asks for no
    character class. *)
Theorem SignInFormSchema_accepts (values : Credentials) :
  (exists data, safeParse SignInFormSchema values = ParseSuccess data)
  <-> isEmail (email values) = true /\ (8 <= String.length (password values))%nat.
Proof.
  rewrite safeParse_accepts. unfold SignInFormSchema, credentials_object, SignIn_password.
  cbn [issues_of].
  rewrite app_nil_iff, !field_issues_nil, email_chain, min_chain. reflexivity.
Qed.

(** X5: whatever [SignUpFormSchema] accepts, [SignInFormSchema] accepts,
    with the same parsed value: credentials one can sign up with are never
    turned down by the validation of sign-in. *)
Theorem signup_credentials_pass_signin (values data : Credentials) :
  safeParse SignUpFormSchema values = ParseSuccess data ->
  safeParse SignInFormSchema values = ParseSuccess data.
Proof.
  rewrite !safeParse_success. intros [Hnil Hdata]. split; [|exact Hdata].
  revert Hnil. unfold SignUpFormSchema, SignInFormSchema, credentials_object, SignIn_password.
  cbn [issues_of].
  rewrite !app_nil_iff, !field_issues_nil, !email_chain, min_chain, policy_chain_SignUp.
  unfold password_policy. tauto.
Qed.

(** X6: [ResetPasswordSchema] accepts an input exactly when its password
    meets the password rule and its confirmation is string-equal to it; and
    the password chains of sign-up and of reset, whose messages differ,
    accept the same passwords. *)
Theorem ResetPasswordSchema_accepts (values : PasswordForm) :
  ((exists data, safeParse ResetPasswordSchema values = ParseSuccess data)
   <-> password_policy (pf_password values)
       /\ pf_confirmPassword values = pf_password values)
  /\ (run_checks ResetPassword_password (pf_password values) = []
      <-> run_checks SignUp_password (pf_password values) = []).
Proof.
  split.
  - rewrite safeParse_accepts. unfold ResetPasswordSchema.
    rewrite refinement_issues_nil. unfold password_object.
    cbn [issues_of output_of pf_password pf_confirmPassword].
    rewrite app_nil_iff, !field_issues_nil, policy_chain_ResetPassword, String.eqb_eq.
    cbn [run_checks]. intuition congruence.
  - rewrite policy_chain_ResetPassword, policy_chain_SignUp. reflexivity.
Qed.

(** X7: [ForgotPasswordSchema] accepts an input exactly when its email is
    one for zod; otherwise its field-error map is the single entry
    [email: ["Please enter valid email"]]. *)
Theorem ForgotPasswordSchema_accepts (values : EmailForm) :
  ((exists data, safeParse ForgotPasswordSchema values = ParseSuccess data)
   <-> isEmail (ef_email values) = true)
  /\ field_errors_of ForgotPasswordSchema values
     = (if isEmail (ef_email values) then ∅
        else {[ "email" := ["Please enter valid email"] ]}).
Proof.
  split.
  - rewrite safeParse_accepts. unfold ForgotPasswordSchema, email_object.
    cbn [issues_of]. rewrite field_issues_nil, email_chain. reflexivity.
  - apply map_eq. intros k.
    unfold field_errors_of, ForgotPasswordSchema, email_object. cbn [issues_of].
    rewrite flatten_lookup, messages_under_field, email_chain_messages.
    destruct (isEmail (ef_email values)).
    + rewrite lookup_empty. destruct (String.eqb "email" k); reflexivity.
    + destruct (String.eqb_spec "email" k) as [<- | Hk].
      * rewrite lookup_singleton_eq. reflexivity.
      * rewrite lookup_singleton_ne by exact Hk. reflexivity.
Qed.

End SchemaFacts.

(* ====================================================================== *)
(** ** More on the actions *)
(* ====================================================================== *)

Section DelegatedTraces.

Context {User A : Type}.
Variables (w : World (User := User)) (label : string) (on_failure : Thrown -> A).
Variable call : SupabaseClient (User := User) -> Delegation A.

(** An envelope that no failure produces comes from a call the provider
    accepted, and that call is the whole trace. *)
Lemma delegated_success r :
  fst (delegated w label on_failure call) = Normal r ->
  (forall e, r <> on_failure e) ->
  exists supabase,
    createClient_result w = Normal supabase
    /\ failed_with (call supabase) = None
    /\ r = on_success (call supabase)
    /\ snd (delegated w label on_failure call)
       = [ProviderCall (invoked (call supabase)) None].
Proof.
  unfold delegated. intros Hr Hnot.
  destruct (createClient_result w) as [supabase | e].
  - destruct (failed_with (call supabase)) as [e|] eqn:Hfailed; simpl in *.
    + injection Hr as <-. destruct (Hnot e eq_refl).
    + injection Hr as <-. exists supabase. auto.
  - simpl in Hr. injection Hr as <-. destruct (Hnot e eq_refl).
Qed.

Lemma delegated_log : log_discipline label (snd (delegated w label on_failure call)).
Proof.
  unfold log_discipline, delegated.
  destruct (createClient_result w) as [supabase | e].
  - destruct (failed_with (call supabase)) as [e|]; simpl.
    + split; [|split].
      * intros l e' [Heq | [Heq | []]]; congruence.
      * auto.
      * intros op e' [Heq | [Heq | []]]; [|discriminate].
        injection Heq as _ <-. auto.
    + split; [|split].
      * intros l e' [Heq | []]. discriminate.
      * auto.
      * intros op e' [Heq | []]. discriminate.
  - simpl. split; [|split].
    + intros l e' [Heq | []]. congruence.
    + auto.
    + intros op e' [Heq | []]. discriminate.
Qed.

(** The log is empty exactly when there was a client and its reply carried
    no failure. *)
Lemma delegated_log_empty :
  console_errors (snd (delegated w label on_failure call)) = []
  <-> exists supabase,
        createClient_result w = Normal supabase /\ failed_with (call supabase) = None.
Proof.
  unfold delegated.
  destruct (createClient_result w) as [supabase | e].
  - destruct (failed_with (call supabase)) as [e|] eqn:Hfailed; simpl.
    + split; [discriminate|]. intros (s & [= <-] & Hnone). congruence.
    + split; eauto.
  - simpl. split; [discriminate|]. intros (s & Hs & _). discriminate.
Qed.

End DelegatedTraces.

Section MoreActionFacts.

Context {User : Type} `{EmailGrammar}.
Implicit Types w : World (User := User).

Lemma safeParse_error {T : Type} (schema : ZodObject T) values error :
  safeParse schema values = ParseError error ->
  error = issues_of schema values /\ issues_of schema values <> [].
Proof.
  unfold safeParse, finish.
  destruct (issues_of schema values) as [|i rest]; [discriminate|].
  intros [= <-]. split; [reflexivity | discriminate].
Qed.

(** The map of a rejected object of [email] and [password]: not empty, and
    with no key but those two. *)
Lemma rejected_credentials_field_errors email_schema password_schema values :
  issues_of (credentials_object email_schema password_schema) values <> [] ->
  field_errors_of (credentials_object email_schema password_schema) values <> ∅
  /\ field_errors_of (credentials_object email_schema password_schema) values !! "email"
     = entry (run_checks email_schema (email values))
  /\ field_errors_of (credentials_object email_schema password_schema) values !! "password"
     = entry (run_checks password_schema (password values))
  /\ (forall k, k <> "email" -> k <> "password" ->
        field_errors_of (credentials_object email_schema password_schema) values !! k = None).
Proof.
  intros Hissues.
  assert (Hemail : field_errors_of (credentials_object email_schema password_schema) values
                   !! "email" = entry (run_checks email_schema (email values))).
  { rewrite credentials_field_errors, String.eqb_refl.
    change (String.eqb "password" "email") with false. cbv iota.
    rewrite app_nil_r. reflexivity. }
  assert (Hpassword : field_errors_of (credentials_object email_schema password_schema) values
                      !! "password" = entry (run_checks password_schema (password values))).
  { rewrite credentials_field_errors, String.eqb_refl.
    change (String.eqb "email" "password") with false. reflexivity. }
  split; [|split; [exact Hemail | split; [exact Hpassword |]]].
  - intros Hempty. rewrite Hempty, lookup_empty in Hemail, Hpassword.
    apply Hissues. unfold credentials_object, field_issues. cbn [issues_of].
    destruct (run_checks email_schema (email values)); [|discriminate].
    destruct (run_checks password_schema (password values)); [|discriminate].
    reflexivity.
  - intros k Hemail_k Hpassword_k. rewrite credentials_field_errors.
    destruct (String.eqb_spec "email" k); [congruence|].
    destruct (String.eqb_spec "password" k); [congruence|].
    reflexivity.
Qed.

(** X9: the [zod_errors] that [signup] or [signin] returns is the flattened
    error of its schema on the input: it is never the empty map, it has no
    key but [email] and [password], [email] holds the one email message
    exactly when the email is bad, and [password] the messages of the
    password checks that failed, in the order of the chain. *)
Theorem validation_envelope_field_errors w values r m :
  zod_errors r = Some m ->
  (fst (signup values w) = Normal r ->
   m <> ∅
   /\ m !! "email"
      = (if isEmail (email values) then None else Some ["Please enter a valid email"])
   /\ m !! "password" = entry (run_checks SignUp_password (password values))
   /\ (forall k, k <> "email" -> k <> "password" -> m !! k = None))
  /\ (fst (signin values w) = Normal r ->
      m <> ∅
      /\ m !! "email"
         = (if isEmail (email values) then None else Some ["Please enter a valid email"])
      /\ m !! "password" = entry (run_checks SignIn_password (password values))
      /\ (forall k, k <> "email" -> k <> "password" -> m !! k = None)).
Proof.
  intros Hzod.
  assert (Hentry : forall msg v,
             entry (run_checks [email_check msg] v) = if isEmail v then None else Some [msg]).
  { intros msg v. rewrite email_chain_messages. destruct (isEmail v); reflexivity. }
  split.
  - destruct (safeParse SignUpFormSchema values) as [data | error] eqn:Hparse.
    + rewrite (signup_valid _ _ _ Hparse). intros Hr. exfalso.
      apply delegated_envelope in Hr.
      destruct Hr as [[e ->] | (supabase & _ & _ & ->)]; discriminate Hzod.
    + rewrite (signup_invalid _ _ _ Hparse). cbn [fst]. intros [= <-].
      cbn [zod_errors] in Hzod. injection Hzod as <-.
      apply safeParse_error in Hparse. destruct Hparse as [-> Hissues].
      rewrite <- Hentry.
      exact (rejected_credentials_field_errors _ _ _ Hissues).
  - destruct (safeParse SignInFormSchema values) as [data | error] eqn:Hparse.
    + rewrite (signin_valid _ _ _ Hparse). intros Hr. exfalso.
      apply delegated_envelope in Hr.
      destruct Hr as [[e ->] | (supabase & _ & _ & ->)]; discriminate Hzod.
    + rewrite (signin_invalid _ _ _ Hparse). cbn [fst]. intros [= <-].
      cbn [zod_errors] in Hzod. injection Hzod as <-.
      apply safeParse_error in Hparse. destruct Hparse as [-> Hissues].
      rewrite <- Hentry.
      exact (rejected_credentials_field_errors _ _ _ Hissues).
Qed.

Lemma failure_envelope_not_success r :
  success r = true -> forall e fallback, r <> failure_envelope e fallback.
Proof. intros Hr e fallback ->. discriminate Hr. Qed.

(** X10: an action reports [success: true] only after one provider call
    that reported no failure, and then that call is all it did: no second
    call and no log entry. *)
Theorem success_means_provider_accepted w :
  (forall values r,
      fst (signup values w) = Normal r -> success r = true ->
      snd (signup values w)
      = [ProviderCall (SignUp (mkCredentials (email values) (password values) [])) None])
  /\ (forall values r,
      fst (signin values w) = Normal r -> success r = true ->
      snd (signin values w) = [ProviderCall (SignInWithPassword values) None])
  /\ (forall provider r,
      fst (signOAuth provider w) = Normal r -> success r = true ->
      snd (signOAuth provider w) = [ProviderCall (SignInWithOAuth provider "") None])
  /\ (forall email r,
      fst (forgotPassword email w) = Normal r -> success r = true ->
      snd (forgotPassword email w)
      = [ProviderCall
           (ResetPasswordForEmail (ef_email email)
              (interpolate (NEXT_PUBLIC_APP_URL w) +:+ "/reset-password")) None])
  /\ (forall newPassword r,
      fst (resetPassword newPassword w) = Normal r -> success r = true ->
      snd (resetPassword newPassword w)
      = [ProviderCall (UpdateUser (pf_password newPassword)) None])
  /\ (forall r,
      fst (signout w) = Normal r -> success r = true ->
      snd (signout w) = [ProviderCall SignOut None])
  /\ (forall r,
      fst (getSession w) = Normal r -> session_success r = true ->
      snd (getSession w) = [ProviderCall GetUser None]).
Proof.
  split; [|split; [|split; [|split; [|split; [|split]]]]].
  - intros values r.
    destruct (safeParse SignUpFormSchema values) as [data | error] eqn:Hparse.
    + rewrite (signup_valid _ _ _ Hparse). intros Hr Hsuccess.
      apply safeParse_success in Hparse. destruct Hparse as [_ ->].
      destruct (delegated_success _ _ _ _ _ Hr) as (supabase & _ & _ & _ & ->).
      * intros e. apply failure_envelope_not_success. exact Hsuccess.
      * reflexivity.
    + rewrite (signup_invalid _ _ _ Hparse). intros [= <-]. discriminate.
  - intros values r.
    destruct (safeParse SignInFormSchema values) as [data | error] eqn:Hparse.
    + rewrite (signin_valid _ _ _ Hparse). intros Hr Hsuccess.
      destruct (delegated_success _ _ _ _ _ Hr) as (supabase & _ & _ & _ & ->).
      * intros e. apply failure_envelope_not_success. exact Hsuccess.
      * reflexivity.
    + rewrite (signin_invalid _ _ _ Hparse). intros [= <-]. discriminate.
  - intros provider r. rewrite signOAuth_run. intros Hr Hsuccess.
    destruct (delegated_success _ _ _ _ _ Hr) as (supabase & _ & _ & _ & ->).
    + intros e. apply failure_envelope_not_success. exact Hsuccess.
    + reflexivity.
  - intros email r. rewrite forgotPassword_run. intros Hr Hsuccess.
    destruct (delegated_success _ _ _ _ _ Hr) as (supabase & _ & _ & _ & ->).
    + intros e. apply failure_envelope_not_success. exact Hsuccess.
    + reflexivity.
  - intros newPassword r. rewrite resetPassword_run. intros Hr Hsuccess.
    destruct (delegated_success _ _ _ _ _ Hr) as (supabase & _ & _ & _ & ->).
    + intros e. apply failure_envelope_not_success. exact Hsuccess.
    + reflexivity.
  - intros r. rewrite signout_run. intros Hr Hsuccess.
    destruct (delegated_success _ _ _ _ _ Hr) as (supabase & _ & _ & _ & ->).
    + intros e. apply failure_envelope_not_success. exact Hsuccess.
    + reflexivity.
  - intros r. rewrite getSession_run. intros Hr Hsuccess.
    destruct (delegated_success _ _ _ _ _ Hr) as (supabase & _ & _ & _ & ->).
    + intros e ->. discriminate Hsuccess.
    + reflexivity.
Qed.

Lemma log_discipline_nil label : log_discipline label [].
Proof.
  unfold log_discipline. simpl. split; [|split]; auto; intros ? ? [].
Qed.

(** X11: every action logs under its own label only, at most once per
    call, and logs every failure a provider call reported before it returns
    the failure envelope. *)
Theorem actions_log_discipline w :
  (forall values, log_discipline "[Auth] Error while sign up" (snd (signup values w)))
  /\ (forall values, log_discipline "[Auth] Sign in failed" (snd (signin values w)))
  /\ (forall provider,
        log_discipline "[Auth] OAuth signin error" (snd (signOAuth provider w)))
  /\ (forall email,
        log_discipline "[Auth] Error occured while sending reset password link"
          (snd (forgotPassword email w)))
  /\ (forall newPassword,
        log_discipline "[Auth] Error while updating password"
          (snd (resetPassword newPassword w)))
  /\ log_discipline "[Auth] Error occured while sign out" (snd (signout w))
  /\ log_discipline "[Auth] Error fetching session" (snd (getSession w)).
Proof.
  split; [|split; [|split; [|split; [|split; [|split]]]]].
  - intros values.
    destruct (safeParse SignUpFormSchema values) as [data | error] eqn:Hparse.
    + rewrite (signup_valid _ _ _ Hparse). apply delegated_log.
    + rewrite (signup_invalid _ _ _ Hparse). apply log_discipline_nil.
  - intros values.
    destruct (safeParse SignInFormSchema values) as [data | error] eqn:Hparse.
    + rewrite (signin_valid _ _ _ Hparse). apply delegated_log.
    + rewrite (signin_invalid _ _ _ Hparse). apply log_discipline_nil.
  - intros provider. rewrite signOAuth_run. apply delegated_log.
  - intros email. rewrite forgotPassword_run. apply delegated_log.
  - intros newPassword. rewrite resetPassword_run. apply delegated_log.
  - rewrite signout_run. apply delegated_log.
  - rewrite getSession_run. apply delegated_log.
Qed.

(** X12: when [getSession] reports success, the user of its envelope is the
    user the provider's [getUser] resolved with, error-free. *)
Theorem getSession_success_user w r :
  fst (getSession w) = Normal r ->
  session_success r = true ->
  exists supabase,
    createClient_result w = Normal supabase
    /\ auth_getUser supabase = Resolved (user r) None.
Proof.
  rewrite getSession_run. intros Hr Hsuccess.
  destruct (delegated_success _ _ _ _ _ Hr) as (supabase & Hclient & Hnone & -> & _).
  - intros e ->. discriminate Hsuccess.
  - exists supabase. split; [exact Hclient|].
    cbn [failed_with on_success user] in *.
    destruct (auth_getUser supabase) as [current error | reason]; simpl in Hnone.
    + rewrite Hnone. reflexivity.
    + discriminate Hnone.
Qed.

(** X13: what an action does not look at. [signup] does the same on an input
    and on that input without its undeclared properties; [resetPassword]
    does the same on two inputs with the same password, whatever their
    confirmation is; [forgotPassword] does the same on two inputs with the
    same email. *)
Theorem actions_ignore_the_rest w :
  (forall values,
      signup values w = signup (mkCredentials (email values) (password values) []) w)
  /\ (forall a b, pf_password a = pf_password b -> resetPassword a w = resetPassword b w)
  /\ (forall a b, ef_email a = ef_email b -> forgotPassword a w = forgotPassword b w).
Proof.
  split; [|split].
  - intros values. unfold signup.
    change (safeParse SignUpFormSchema (mkCredentials (email values) (password values) []))
      with (safeParse SignUpFormSchema values).
    reflexivity.
  - intros a b Heq. unfold resetPassword. rewrite Heq. reflexivity.
  - intros a b Heq. unfold forgotPassword. rewrite Heq. reflexivity.
Qed.

(** X14: when the application URL is not set in the environment,
    [forgotPassword] still calls the provider, with the redirect
    [undefined/reset-password]. *)
Theorem forgotPassword_without_app_url w supabase email :
  createClient_result w = Normal supabase ->
  NEXT_PUBLIC_APP_URL w = None ->
  provider_calls (snd (forgotPassword email w))
  = [ResetPasswordForEmail (ef_email email) "undefined/reset-password"].
Proof.
  intros Hclient Hurl.
  rewrite forgotPassword_run, delegated_calls, Hclient. cbn [invoked].
  rewrite Hurl. reflexivity.
Qed.

(** X15: [signOAuth] reports success exactly when there is a client and its
    reply carries data and no error; and it logs nothing exactly when the
    reply carries no error, so that a reply with neither error nor data
    gives a failure that is not logged. *)
Theorem signOAuth_success_iff w provider r :
  fst (signOAuth provider w) = Normal r ->
  (success r = true
   <-> exists supabase url,
         createClient_result w = Normal supabase
         /\ auth_signInWithOAuth supabase provider "" = Resolved (Some url) None)
  /\ (console_errors (snd (signOAuth provider w)) = []
      <-> exists supabase data,
            createClient_result w = Normal supabase
            /\ auth_signInWithOAuth supabase provider "" = Resolved data None).
Proof.
  rewrite signOAuth_run. intros Hr. split.
  - split.
    + intros Hsuccess.
      destruct (delegated_success _ _ _ _ _ Hr) as (supabase & Hclient & Hnone & -> & _).
      * intros e. apply failure_envelope_not_success. exact Hsuccess.
      * exists supabase. cbn [failed_with on_success] in *.
        destruct (auth_signInWithOAuth supabase provider "") as [[url|] error | reason];
          simpl in *; try discriminate.
        subst error. eauto.
    + intros (supabase & url & Hclient & Hreply). revert Hr.
      unfold delegated. rewrite Hclient. cbn [failed_with on_success invoked].
      rewrite Hreply. simpl. intros [= <-]. reflexivity.
  - rewrite delegated_log_empty. split.
    + intros (supabase & Hclient & Hnone). cbn [failed_with] in Hnone.
      destruct (auth_signInWithOAuth supabase provider "") as [data error | reason] eqn:Hreply;
        simpl in Hnone; [|discriminate].
      subst error. eauto.
    + intros (supabase & data & Hclient & Hreply). exists supabase.
      split; [exact Hclient|]. cbn [failed_with]. rewrite Hreply. reflexivity.
Qed.

End MoreActionFacts.

(* ====================================================================== *)
(** ** These statements at sample inputs *)
(* ====================================================================== *)

Lemma signup_credentials_pass_signin_example :
  safeParse (SignInFormSchema (H := sample_grammar)) (mkCredentials "a@b.com" "Abcdef1!" [])
  = ParseSuccess (mkCredentials "a@b.com" "Abcdef1!" []).
Proof.
  apply (signup_credentials_pass_signin (H := sample_grammar)). reflexivity.
Defined.

(** Sign-in with a five-character password: one entry, under [password]. *)
Lemma validation_envelope_field_errors_example :
  field_errors_of (SignInFormSchema (H := sample_grammar)) (mkCredentials "a@b.com" "short" [])
  <> ∅
  /\ field_errors_of (SignInFormSchema (H := sample_grammar))
       (mkCredentials "a@b.com" "short" []) !! "email" = None
  /\ field_errors_of (SignInFormSchema (H := sample_grammar))
       (mkCredentials "a@b.com" "short" []) !! "password"
     = Some ["Be at least 8 characters long"]
  /\ (forall k, k <> "email" -> k <> "password" ->
        field_errors_of (SignInFormSchema (H := sample_grammar))
          (mkCredentials "a@b.com" "short" []) !! k = None).
Proof.
  exact (proj2
           (validation_envelope_field_errors (H := sample_grammar) accepting_world
              (mkCredentials "a@b.com" "short" [])
              {| success := false;
                 message := "Form validation error";
                 zod_errors :=
                   Some (field_errors_of (SignInFormSchema (H := sample_grammar))
                           (mkCredentials "a@b.com" "short" [])) |}
              _ eq_refl)
           eq_refl).
Defined.

Lemma success_means_provider_accepted_example :
  snd (signout accepting_world) = [ProviderCall SignOut None].
Proof.
  destruct (success_means_provider_accepted (H := sample_grammar) accepting_world)
    as (_ & _ & _ & _ & _ & Hsignout & _).
  apply (Hsignout {| success := true; message := "Sign out successful"; zod_errors := None |});
    reflexivity.
Defined.

Lemma getSession_success_user_example :
  exists supabase,
    createClient_result (signed_in_world "user-1") = Normal supabase
    /\ auth_getUser supabase = Resolved (Some "user-1") None.
Proof.
  apply (getSession_success_user (signed_in_world "user-1")
           {| session_success := true;
              session_message := "Fetching user sesssion successful";
              user := Some "user-1" |}); reflexivity.
Defined.

(** A reset whose confirmation differs is handled as one whose confirmation
    matches. *)
Lemma actions_ignore_the_rest_example :
  resetPassword (mkPasswordForm "Abcdef1!" "Abcdef2!" []) accepting_world
  = resetPassword (mkPasswordForm "Abcdef1!" "Abcdef1!" []) accepting_world.
Proof.
  apply (proj1 (proj2 (actions_ignore_the_rest (H := sample_grammar) accepting_world))).
  reflexivity.
Defined.

Lemma forgotPassword_without_app_url_example :
  provider_calls (snd (forgotPassword (mkEmailForm "a@b.com" []) (signed_in_world "user-1")))
  = [ResetPasswordForEmail "a@b.com" "undefined/reset-password"].
Proof.
  apply (forgotPassword_without_app_url (signed_in_world "user-1")
           (signed_in_client "user-1")); reflexivity.
Defined.

Lemma signOAuth_success_iff_example :
  (success {| success := true; message := "OAuth signin successful"; zod_errors := None |}
   = true
   <-> exists supabase url,
         createClient_result accepting_world = Normal supabase
         /\ auth_signInWithOAuth supabase "github" "" = Resolved (Some url) None)
  /\ (console_errors (snd (signOAuth "github" accepting_world)) = []
      <-> exists supabase data,
            createClient_result accepting_world = Normal supabase
            /\ auth_signInWithOAuth supabase "github" "" = Resolved data None).
Proof.
  apply (signOAuth_success_iff accepting_world "github"
           {| success := true; message := "OAuth signin successful"; zod_errors := None |}).
  reflexivity.
Defined.

(** Faults that are no [AuthError]: [createClient()] throwing at sign-out,
    and the provider's [getUser] being rejected, both end in the failure
    envelope with the fallback message. *)
Lemma actions_never_throw_example :
  fst (signout (clientless_world (OtherThrown "cookies() failed")))
  = Normal {| success := false;
              message := "Error occured while sign out";
              zod_errors := None |}
  /\ fst (getSession (throwing_world (OtherThrown "socket hang up")))
     = Normal {| session_success := false;
                 session_message := "Error fetching session";
                 user := None |}.
Proof.
  split.
  - destruct (actions_never_throw (H := sample_grammar)
                (clientless_world (OtherThrown "cookies() failed")))
      as (_ & _ & _ & _ & _ & _ & (_ & Hclient & _) & _).
    apply (Hclient (OtherThrown "cookies() failed")). reflexivity.
  - destruct (actions_never_throw (H := sample_grammar)
                (throwing_world (OtherThrown "socket hang up")))
      as (_ & _ & _ & _ & _ & _ & _ & (_ & _ & Hreply)).
    apply (Hreply (throwing_client (OtherThrown "socket hang up"))
             (OtherThrown "socket hang up")); reflexivity.
Defined.
